(** * m3u8_download: the ad-filtering, resumable HLS segment fetcher

    A shallow embedding of [src/m3u8_download.py] and the properties of it
    that the design document states.

    Conventions of the embedding.
    - A Python [str] is the list of its Unicode code points ([N]); a
      [bytes] value is a [list byte].
    - [list.append] on a local list is written [l ++ [x]].
    - Code that touches the disk, the state file or the network is a
      function of an explicit [world] and returns the new world together
      with either a value or the exception that was raised. *)

From Stdlib Require Import NArith String Ascii DecimalString.
From Stdlib.Strings Require Import Byte.
From stdpp Require Import base option list gmap sets.

Local Open Scope N_scope.

(** ** Python strings *)

Abbreviation str := (list N).

(** A literal: the code points of an ASCII string constant. *)
Definition py (s : string) : str :=
  map N_of_ascii (list_ascii_of_string s).

Definition NL : N := 10.
Definition DOT : N := 46.

(** [str.isspace] on one code point, the characters [str.strip()] removes:
    U+0009..U+000D, U+001C..U+0020, U+0085, U+00A0, U+1680, U+2000..U+200A,
    U+2028, U+2029, U+202F, U+205F, U+3000. *)
Definition isspace (c : N) : bool :=
  ((9 <=? c) && (c <=? 13)) || ((28 <=? c) && (c <=? 32))
  || (c =? 133) || (c =? 160) || (c =? 5760)
  || ((8192 <=? c) && (c <=? 8202))
  || (c =? 8232) || (c =? 8233) || (c =? 8239) || (c =? 8287) || (c =? 12288).

Fixpoint lstrip (s : str) : str :=
  match s with
  | [] => []
  | c :: r => if isspace c then lstrip r else s
  end.

Fixpoint rstrip (s : str) : str :=
  match s with
  | [] => []
  | c :: r =>
      match rstrip r with
      | [] => if isspace c then [] else [c]
      | r' => c :: r'
      end
  end.

(** [s.strip()] *)
Definition strip (s : str) : str := rstrip (lstrip s).

(** [s.split(sep)] for a one-character separator: never the empty list. *)
Fixpoint split (sep : N) (s : str) : list str :=
  match s with
  | [] => [[]]
  | c :: r =>
      if c =? sep then [] :: split sep r
      else match split sep r with
           | [] => [[c]]
           | l :: ls => (c :: l) :: ls
           end
  end.

(** [sep.join(ls)] *)
Fixpoint join (sep : str) (ls : list str) : str :=
  match ls with
  | [] => []
  | [l] => l
  | l :: ls' => l ++ sep ++ join sep ls'
  end.

(** [s.startswith(p)] *)
Fixpoint startswith (p s : str) : bool :=
  match p, s with
  | [], _ => true
  | _ :: _, [] => false
  | a :: p', b :: s' => (a =? b) && startswith p' s'
  end.

(** [s.endswith(p)] *)
Definition endswith (p s : str) : bool := startswith (rev p) (rev s).

(** [p in s] *)
Fixpoint contains (p s : str) : bool :=
  startswith p s ||
  match s with
  | [] => false
  | _ :: r => contains p r
  end.

(** [s.rsplit(sep, 1)] for a one-character separator: [[s]] when [sep] does
    not occur, else the text before and after its last occurrence. *)
Fixpoint rsplit1 (sep : N) (s : str) : list str :=
  match s with
  | [] => [[]]
  | c :: r =>
      match rsplit1 sep r with
      | [a; b] => [c :: a; b]
      | _ => if c =? sep then [[]; r] else [c :: r]
      end
  end.

(** [str(n)] of a non-negative [int] *)
Definition str_of_nat (n : nat) : str :=
  py (NilZero.string_of_uint (Nat.to_uint n)).

(** ** Output file name (lines 19-20 and 270-271)

    [if not output_filename.endswith('.mp4'):
         output_filename = output_filename.rsplit('.', 1)[0] + '.mp4'] *)
Definition normalize_output_filename (output_filename : str) : str :=
  if negb (endswith (py ".mp4") output_filename)
  then hd [] (rsplit1 DOT output_filename) ++ py ".mp4"
  else output_filename.

(** ** The ad filter *)

Definition DISCONTINUITY : str := py "#EXT-X-DISCONTINUITY".

Definition is_discontinuity (line : str) : bool := startswith DISCONTINUITY line.

Local Close Scope N_scope.

(** The first definition of [filter_ad_segments] (lines 100-139): the [for]
    loop, with its three local variables as arguments. *)
Fixpoint filter_loop_first (lines : list str) (discontinuity_count : nat)
    (skip_segment : bool) (filtered_lines : list str) : list str :=
  match lines with
  | [] => filtered_lines
  | line :: rest =>
      if startswith (py "#EXT-X-DISCONTINUITY") line then
        let discontinuity_count := discontinuity_count + 1 in
        if discontinuity_count =? 1 then
          filter_loop_first rest discontinuity_count false (filtered_lines ++ [line])
        else if discontinuity_count mod 2 =? 0 then
          filter_loop_first rest discontinuity_count true filtered_lines
        else
          filter_loop_first rest discontinuity_count false (filtered_lines ++ [line])
      else if negb skip_segment then
        filter_loop_first rest discontinuity_count skip_segment (filtered_lines ++ [line])
      else
        filter_loop_first rest discontinuity_count skip_segment filtered_lines
  end.

Definition filter_ad_segments_first (m3u8_content : str) : str :=
  let lines := split NL (strip m3u8_content) in
  join [NL] (filter_loop_first lines 0 false []).

(** The second definition (lines 141-175), the one in force after the module
    is loaded. *)
Fixpoint filter_loop (lines : list str) (discontinuity_count : nat)
    (skip_segment : bool) (filtered_lines : list str) : list str :=
  match lines with
  | [] => filtered_lines
  | line :: rest =>
      if startswith (py "#EXT-X-DISCONTINUITY") line then
        let discontinuity_count := discontinuity_count + 1 in
        if discontinuity_count =? 1 then
          filter_loop rest discontinuity_count false (filtered_lines ++ [line])
        else if discontinuity_count mod 2 =? 0 then
          filter_loop rest discontinuity_count true filtered_lines
        else
          filter_loop rest discontinuity_count false (filtered_lines ++ [line])
      else if negb skip_segment then
        filter_loop rest discontinuity_count skip_segment (filtered_lines ++ [line])
      else
        filter_loop rest discontinuity_count skip_segment filtered_lines
  end.

(** The lines the filter works on, and the lines it keeps. *)
Definition manifest_lines (m3u8_content : str) : list str :=
  split NL (strip m3u8_content).

Definition filtered_lines_of (m3u8_content : str) : list str :=
  filter_loop (manifest_lines m3u8_content) 0 false [].

Definition filter_ad_segments (m3u8_content : str) : str :=
  let lines := split NL (strip m3u8_content) in
  join [NL] (filter_loop lines 0 false []).

(** ** The world the fetcher runs in *)

Abbreviation bytes := (list byte).

(** The exceptions the modelled calls raise.  [ConnectionError] and [Timeout]
    are the transport errors of [requests.get]; [HTTPError] is what
    [Response.raise_for_status] raises. *)
Inductive exn :=
| FileNotFoundError
| PermissionError
| JSONDecodeError
| HTTPError (status_code : N)
| ConnectionError
| Timeout.

Inductive outcome (A : Type) :=
| Returned (a : A)
| Raised (e : exn).
Arguments Returned {A} a.
Arguments Raised {A} e.

(** The dict kept in the state file.  Only dicts of the shape that
    [save_download_state] writes are modelled. *)
Record state_dict := StateDict {
  key_downloaded_segments : list str;  (* ["downloaded_segments"] *)
  key_total_segments : nat             (* ["total_segments"] *)
}.

(** What [json.load] makes of the text of a state file. *)
Inductive json_text :=
| Encodes (st : state_dict)
| Garbage.

(** A state file: one that [open] refuses, or a text. *)
Inductive state_file :=
| Locked
| Text (t : json_text).

(** What the server does with one GET. *)
Inductive reply :=
| Response (status_code : N) (content : bytes)
| NoResponse (e : exn).

(** - [disk]: the binary files of the working directory, by name;
    - [store]: the state files, by name.  The two are kept apart: a file
      name is taken to belong to one of them for good, so the model covers
      the runs in which no segment, temporary or destination file bears
      the name of a state file ([download_state_<md5>.json]);
    - [wire]: the URLs requested so far, oldest first;
    - [http n url]: the reply to the request number [n] when it asks for
      [url]. *)
Record world := World {
  disk : gmap str bytes;
  store : gmap str state_file;
  wire : list str;
  http : nat -> str -> reply
}.

(** Library functions the source calls, and whose code is elsewhere:
    [urllib.parse.urljoin], [urlparse(url).path], [os.path.basename] and
    [hashlib.md5(s.encode()).hexdigest()]. *)
Class Library := {
  urljoin : str -> str -> str;
  urlparse_path : str -> str;
  os_path_basename : str -> str;
  md5_hexdigest : str -> str
}.

(** *** A state and exception monad *)

Definition M (A : Type) : Type := world -> world * outcome A.

Definition ret {A} (a : A) : M A := fun w => (w, Returned a).

Definition raise {A} (e : exn) : M A := fun w => (w, Raised e).

Definition bind {A B} (c : M A) (k : A -> M B) : M B :=
  fun w =>
    match c w with
    | (w', Returned a) => k a w'
    | (w', Raised e) => (w', Raised e)
    end.

(** [try: body / except <class> as e: handler e] where [catches] tells which
    exceptions the [except] clause matches. *)
Definition try_except {A} (body : M A) (catches : exn -> bool)
    (handler : exn -> M A) : M A :=
  fun w =>
    match body w with
    | (w', Raised e) => if catches e then handler e w' else (w', Raised e)
    | r => r
    end.

Declare Scope fetch_scope.
Delimit Scope fetch_scope with fetch.
Notation "x <- c1 ;; c2" := (bind c1 (fun x => c2))
  (at level 20, c1 at level 99, c2 at level 200, only parsing) : fetch_scope.
Notation "c1 ;; c2" := (bind c1 (fun _ => c2))
  (at level 100, c2 at level 200, only parsing, right associativity) : fetch_scope.
Local Open Scope fetch_scope.

(** [except FileNotFoundError] and [except Exception] *)
Definition is_FileNotFoundError (e : exn) : bool :=
  match e with FileNotFoundError => true | _ => false end.

Definition is_Exception (e : exn) : bool := true.

(** *** The primitive effects *)

(** [open(name, 'r')] on a state file *)
Definition open_r (name : str) : M json_text :=
  fun w =>
    match store w !! name with
    | None => (w, Raised FileNotFoundError)
    | Some Locked => (w, Raised PermissionError)
    | Some (Text t) => (w, Returned t)
    end.

(** [json.load(f)] *)
Definition json_load (t : json_text) : M state_dict :=
  match t with
  | Encodes st => ret st
  | Garbage => raise JSONDecodeError
  end.

(** [with open(name, 'w') as f: json.dump(state, f)] *)
Definition json_dump_w (name : str) (state : state_dict) : M unit :=
  fun w =>
    match store w !! name with
    | Some Locked => (w, Raised PermissionError)
    | _ => (World (disk w) (<[name := Text (Encodes state)]> (store w))
                  (wire w) (http w), Returned tt)
    end.

(** [requests.get(url, headers=headers)]: the request goes on the wire, and
    the call returns the response or raises the transport error.  The
    headers are not modelled. *)
Definition requests_get (url : str) : M (N * bytes) :=
  fun w =>
    let w' := World (disk w) (store w) (wire w ++ [url]) (http w) in
    match http w (length (wire w)) url with
    | Response status_code content => (w', Returned (status_code, content))
    | NoResponse e => (w', Raised e)
    end.

(** [response.raise_for_status()]: [requests] raises [HTTPError] exactly
    when [400 <= status_code < 600]. *)
Definition raise_for_status (response : N * bytes) : M unit :=
  let status_code := fst response in
  if ((400 <=? status_code) && (status_code <? 600))%N
  then raise (HTTPError status_code)
  else ret tt.

(** [with open(filename, 'wb') as f: f.write(content)], for a name that is
    not that of a state file *)
Definition write_wb (filename : str) (content : bytes) : M unit :=
  fun w => (World (<[filename := content]> (disk w)) (store w) (wire w) (http w),
            Returned tt).

(** [with open(name, 'rb') as infile: infile.read()] *)
Definition read_rb (name : str) : M bytes :=
  fun w =>
    match disk w !! name with
    | Some content => (w, Returned content)
    | None => (w, Raised FileNotFoundError)
    end.

(** [outfile.write(data)] on a file opened with ['wb']: the data goes to
    the end of what the file holds once it is closed, and [disk] holds that
    content from the write on.  Python buffers the write, so a reader of
    the file may see less before the close: see [read_input]. *)
Definition append_wb (name : str) (data : bytes) : M unit :=
  fun w => (World (<[name := default [] (disk w !! name) ++ data]> (disk w))
                  (store w) (wire w) (http w),
            Returned tt).

(** How much of what has been written to a file object that is still open
    has reached the file.  Python passes the data on when its buffer is
    full and when the file is closed, also when the [with] block is left
    by an exception; the size of the buffer is the platform's choice.
    [flushed chunks] is the number of bytes that have reached the file once
    [chunks] have been written, oldest first. *)
Class Buffering := {
  flushed : list bytes -> nat
}.

(** ** Stream assembly (lines 211-224) *)

Section Assembly.
Context `{Buffering}.

(** [with open(ts_file, 'rb') as infile: infile.read()] (lines 223-224) while
    the destination is open for writing and [chunks] have been written to
    it.  An input other than the destination is read as it is.  The
    destination itself exists, since line 221 has created or truncated it,
    and a reader finds in it what has reached it so far. *)
Definition read_input (output_filename : str) (chunks : list bytes)
    (ts_file : str) : M bytes :=
  if bool_decide (ts_file = output_filename)
  then ret (take (flushed chunks) (concat chunks))
  else read_rb ts_file.

Fixpoint concatenate_loop (ts_files : list str) (output_filename : str)
    (chunks : list bytes) : M unit :=
  match ts_files with
  | [] => ret tt
  | ts_file :: rest =>
      data <- read_input output_filename chunks ts_file ;;
      append_wb output_filename data ;;
      concatenate_loop rest output_filename (chunks ++ [data])
  end.

Definition concatenate_videos (ts_files : list str) (output_filename : str) : M unit :=
  write_wb output_filename [] ;;
  concatenate_loop ts_files output_filename [].

End Assembly.

(** [line.endswith('.ts') or '.ts?' in line] *)
Definition is_ts (line : str) : bool :=
  endswith (py ".ts") line || contains (py ".ts?") line.

Section Fetcher.
Context `{Library}.

(** ** The resume state (lines 245-263) *)

Definition get_download_state_filename (m3u8_url : str) : str :=
  py "download_state_" ++ md5_hexdigest m3u8_url ++ py ".json".

Definition default_state : state_dict :=
  {| key_downloaded_segments := []; key_total_segments := 0 |}.

Definition load_download_state (m3u8_url : str) : M state_dict :=
  let state_file := get_download_state_filename m3u8_url in
  try_except
    (f <- open_r state_file ;; json_load f)
    is_FileNotFoundError
    (fun _ => ret default_state).

Definition save_download_state (m3u8_url : str) (state : state_dict) : M unit :=
  let state_file := get_download_state_filename m3u8_url in
  json_dump_w state_file state.

(** ** The fetchers *)

(** Lines 195-198 and 342-345: the name of the file of a segment from its
    URL, [n] being [len(ts_files)] at that point. *)
Definition segment_filename (ts_url : str) (n : nat) : str :=
  let filename := os_path_basename (urlparse_path ts_url) in
  match filename with
  | [] => py "segment_" ++ str_of_nat n ++ py ".ts"
  | _ => filename
  end.

(** [download_ts_segments] (lines 177-209).  [print] is not modelled. *)
Fixpoint download_loop (lines : list str) (base_url : str)
    (ts_files : list str) : M (list str) :=
  match lines with
  | [] => ret ts_files
  | line :: rest =>
      if is_ts line then
        let ts_url := urljoin base_url line in
        let filename := segment_filename ts_url (length ts_files) in
        response <- requests_get ts_url ;;
        raise_for_status response ;;
        write_wb filename (snd response) ;;
        download_loop rest base_url (ts_files ++ [filename])
      else download_loop rest base_url ts_files
  end.

Definition download_ts_segments (m3u8_content base_url : str) : M (list str) :=
  let lines := split NL (strip m3u8_content) in
  download_loop lines base_url [].

(** [download_ts_segments_with_resume] (lines 320-373).

    The body of the [try] for one segment that is not in the completed
    set: it returns the three variables it assigns, [ts_files],
    [downloaded_list] and [download_state]. *)
Definition fetch_segment (ts_url filename m3u8_url : str)
    (ts_files downloaded_list : list str) (download_state : state_dict)
  : M (list str * list str * state_dict) :=
  try_except
    (response <- requests_get ts_url ;;
     raise_for_status response ;;
     write_wb filename (snd response) ;;
     let ts_files := ts_files ++ [filename] in
     let downloaded_list :=
       if bool_decide (filename ∈ downloaded_list) then downloaded_list
       else downloaded_list ++ [filename] in
     let download_state :=
       {| key_downloaded_segments := downloaded_list;
          key_total_segments := key_total_segments download_state |} in
     save_download_state m3u8_url download_state ;;
     ret (ts_files, downloaded_list, download_state))
    is_Exception
    (fun e => raise e).

(** The [for] loop; [segment_index] only feeds [print] and is left out. *)
Fixpoint resume_loop (lines : list str) (base_url : str)
    (downloaded_segments : gset str) (m3u8_url : str)
    (ts_files downloaded_list : list str) (download_state : state_dict)
  : M (list str) :=
  match lines with
  | [] => ret ts_files
  | line :: rest =>
      if is_ts line then
        let ts_url := urljoin base_url line in
        let filename := segment_filename ts_url (length ts_files) in
        if bool_decide (filename ∈ downloaded_segments) then
          resume_loop rest base_url downloaded_segments m3u8_url
            (ts_files ++ [filename]) downloaded_list download_state
        else
          r <- fetch_segment ts_url filename m3u8_url
                 ts_files downloaded_list download_state ;;
          resume_loop rest base_url downloaded_segments m3u8_url
            r.1.1 r.1.2 r.2
      else
        resume_loop rest base_url downloaded_segments m3u8_url
          ts_files downloaded_list download_state
  end.

Definition download_ts_segments_with_resume (m3u8_content base_url : str)
    (downloaded_segments : gset str) (m3u8_url : str) : M (list str) :=
  let lines := split NL (strip m3u8_content) in
  download_state <- load_download_state m3u8_url ;;
  let downloaded_list := key_downloaded_segments download_state in
  let total_segments := length (filter (fun line => is_ts line = true) lines) in
  let download_state :=
    {| key_downloaded_segments := downloaded_list;
       key_total_segments := total_segments |} in
  save_download_state m3u8_url download_state ;;
  resume_loop lines base_url downloaded_segments m3u8_url
    [] downloaded_list download_state.

End Fetcher.

(** ** Clean-up, conversion and the two entry points *)

(** [os.remove(name)] on a file of the working directory, for a name that
    is not that of a state file *)
Definition os_remove (name : str) : M unit :=
  fun w =>
    match disk w !! name with
    | Some _ => (World (delete name (disk w)) (store w) (wire w) (http w),
                 Returned tt)
    | None => (w, Raised FileNotFoundError)
    end.

(** [os.path.exists(name)] and [os.remove(name)] on a state file; a file
    that [open] refuses is taken to refuse removal too. *)
Definition os_path_exists_state (name : str) : M bool :=
  fun w => (w, Returned (bool_decide (is_Some (store w !! name)))).

Definition os_remove_state (name : str) : M unit :=
  fun w =>
    match store w !! name with
    | Some Locked => (w, Raised PermissionError)
    | Some (Text _) => (World (disk w) (delete name (store w)) (wire w) (http w),
                        Returned tt)
    | None => (w, Raised FileNotFoundError)
    end.

(** [cleanup_temp_files] (lines 226-240) *)
Fixpoint remove_loop (ts_files : list str) : M unit :=
  match ts_files with
  | [] => ret tt
  | ts_file :: rest => os_remove ts_file ;; remove_loop rest
  end.

Definition cleanup_temp_files (temp_m3u8_path : str) (ts_files : list str) : M unit :=
  try_except
    (os_remove temp_m3u8_path ;; remove_loop ts_files)
    is_Exception
    (fun _ => ret tt).

(** What one [subprocess.run] of ffmpeg does: the process cannot be started
    and the call raises, or it exits with a return code and leaves the
    working directory in some state. *)
Inductive process_result :=
| Exited (returncode : Z) (files : gmap str bytes)
| NotStarted (e : exn).

(** What the entry points take from outside the repository besides the
    library functions above: the text [requests] makes of a response
    ([response.text]), the bytes a text-mode [write] with
    [encoding='utf-8'] puts in a file, and ffmpeg. *)
Class Platform := {
  response_text : N * bytes -> str;
  text_encode : str -> bytes;
  subprocess_run : list str -> gmap str bytes -> process_result
}.

Definition SLASH : N := 47%N.

Definition temp_m3u8_path : str := py "temp_filtered.m3u8".
Definition temp_ts_file : str := py "temp_concatenated.ts".

Section EntryPoints.
Context `{Library} `{Platform} `{Buffering}.

(** [convert_ts_to_mp4] (lines 59-96).  [subprocess.run(cmd, check=True)]
    raises [CalledProcessError] on a non-zero return code; that exception
    and [FileNotFoundError] are the two the function catches, so neither
    leaves it. *)
Definition convert_ts_to_mp4 (input_ts_file output_mp4_file : str) : M unit :=
  fun w =>
    let cmd := [py "ffmpeg"; py "-i"; input_ts_file; py "-c"; py "copy";
                py "-bsf:a"; py "aac_adtstoasc"; output_mp4_file] in
    match subprocess_run cmd (disk w) with
    | NotStarted e =>
        if is_FileNotFoundError e then (w, Returned tt) else (w, Raised e)
    | Exited returncode files =>
        let w1 := World files (store w) (wire w) (http w) in
        if (returncode =? 0)%Z then (w1, Returned tt)
        else
          let cmd := [py "ffmpeg"; py "-i"; input_ts_file; py "-c:v"; py "libx264";
                      py "-c:a"; py "aac"; output_mp4_file] in
          match subprocess_run cmd files with
          | NotStarted e =>
              if is_FileNotFoundError e then (w1, Returned tt) else (w1, Raised e)
          | Exited _ files' =>
              (World files' (store w) (wire w) (http w), Returned tt)
          end
    end.

(** [with open(path, 'w', encoding='utf-8') as f: f.write(text)] *)
Definition write_text (path text : str) : M unit :=
  write_wb path (text_encode text).

(** [m3u8_url.rsplit('/', 1)[0] + '/'] *)
Definition base_url_of (m3u8_url : str) : str :=
  hd [] (rsplit1 SLASH m3u8_url) ++ py "/".

(** [download_m3u8_video_to_mp4] (lines 8-57).  The request headers and
    [print] are not modelled. *)
Definition download_m3u8_video_to_mp4 (m3u8_url output_filename : str) : M unit :=
  let output_filename := normalize_output_filename output_filename in
  response <- requests_get m3u8_url ;;
  raise_for_status response ;;
  let m3u8_content := response_text response in
  let filtered_content := filter_ad_segments m3u8_content in
  write_text temp_m3u8_path filtered_content ;;
  let base_url := base_url_of m3u8_url in
  ts_files <- download_ts_segments filtered_content base_url ;;
  concatenate_videos ts_files temp_ts_file ;;
  convert_ts_to_mp4 temp_ts_file output_filename ;;
  cleanup_temp_files temp_m3u8_path ts_files ;;
  try_except (os_remove temp_ts_file) is_Exception (fun _ => ret tt).

(** [download_m3u8_video_to_mp4_with_resume] (lines 265-318) *)
Definition download_m3u8_video_to_mp4_with_resume (m3u8_url output_filename : str)
  : M unit :=
  let output_filename := normalize_output_filename output_filename in
  download_state <- load_download_state m3u8_url ;;
  let downloaded_segments : gset str :=
    list_to_set (key_downloaded_segments download_state) in
  response <- requests_get m3u8_url ;;
  raise_for_status response ;;
  let m3u8_content := response_text response in
  let filtered_content := filter_ad_segments m3u8_content in
  write_text temp_m3u8_path filtered_content ;;
  let base_url := base_url_of m3u8_url in
  ts_files <- download_ts_segments_with_resume
                filtered_content base_url downloaded_segments m3u8_url ;;
  concatenate_videos ts_files temp_ts_file ;;
  convert_ts_to_mp4 temp_ts_file output_filename ;;
  cleanup_temp_files temp_m3u8_path ts_files ;;
  try_except
    (os_remove temp_ts_file ;;
     let state_file := get_download_state_filename m3u8_url in
     state_exists <- os_path_exists_state state_file ;;
     if state_exists then os_remove_state state_file else ret tt)
    is_Exception
    (fun _ => ret tt).

End EntryPoints.

(** ** The vocabulary of the statements *)

(** The number of discontinuity markers among the lines. *)
Definition marker_count (lines : list str) : nat :=
  length (filter (fun line => is_discontinuity line = true) lines).

(** The segment lines among the lines, in order. *)
Definition segment_lines (lines : list str) : list str :=
  filter (fun line => is_ts line = true) lines.

(** The discontinuity-parity rule as the design document words it: a walk
    over the lines with a counter and a skip flag; [parity_rule c skip lines
    out] says that the walk from counter [c] and flag [skip] emits [out]. *)
Inductive parity_rule : nat -> bool -> list str -> list str -> Prop :=
| rule_end c skip :
    parity_rule c skip [] []
| rule_first c skip line rest out :
    is_discontinuity line = true -> c + 1 = 1 ->
    parity_rule (c + 1) false rest out ->
    parity_rule c skip (line :: rest) (line :: out)
| rule_even c skip line rest out :
    is_discontinuity line = true -> Nat.Even (c + 1) ->
    parity_rule (c + 1) true rest out ->
    parity_rule c skip (line :: rest) out
| rule_odd c skip line rest out :
    is_discontinuity line = true -> Nat.Odd (c + 1) -> 1 < c + 1 ->
    parity_rule (c + 1) false rest out ->
    parity_rule c skip (line :: rest) (line :: out)
| rule_emit c line rest out :
    is_discontinuity line = false ->
    parity_rule c false rest out ->
    parity_rule c false (line :: rest) (line :: out)
| rule_drop c line rest out :
    is_discontinuity line = false ->
    parity_rule c true rest out ->
    parity_rule c true (line :: rest) out.

Section Plan.
Context `{Library}.

(** The segments of a manifest as the fetchers see them: the URL and the
    file name of each segment line, the [n]-th one named with ordinal [n]. *)
Fixpoint plan_from (base_url : str) (n : nat) (segments : list str)
  : list (str * str) :=
  match segments with
  | [] => []
  | line :: rest =>
      (urljoin base_url line, segment_filename (urljoin base_url line) n)
        :: plan_from base_url (S n) rest
  end.

Definition segment_plan (base_url : str) (lines : list str) : list (str * str) :=
  plan_from base_url 0 (segment_lines lines).

(** The segments whose file name is not in the completed set. *)
Definition pending (completed : gset str) (plan : list (str * str))
  : list (str * str) :=
  filter (fun p => p.2 ∉ completed) plan.

(** Lines 364-365, [if filename not in downloaded_list: append], once and
    for a list of names. *)
Definition add_new (downloaded_list : list str) (filename : str) : list str :=
  if bool_decide (filename ∈ downloaded_list) then downloaded_list
  else downloaded_list ++ [filename].

Definition add_all (downloaded_list names : list str) : list str :=
  foldl add_new downloaded_list names.

(** The loop of [download_ts_segments_with_resume] on the plan of the
    lines, returning its three variables. *)
Fixpoint run_plan (plan : list (str * str)) (completed : gset str)
    (m3u8_url : str) (ts_files downloaded_list : list str)
    (download_state : state_dict) : M (list str * list str * state_dict) :=
  match plan with
  | [] => ret (ts_files, downloaded_list, download_state)
  | (ts_url, filename) :: rest =>
      if bool_decide (filename ∈ completed) then
        run_plan rest completed m3u8_url
          (ts_files ++ [filename]) downloaded_list download_state
      else
        r <- fetch_segment ts_url filename m3u8_url
               ts_files downloaded_list download_state ;;
        run_plan rest completed m3u8_url r.1.1 r.1.2 r.2
  end.

(** The state file of the playlist can be opened and holds a state. *)
Definition state_readable (m3u8_url : str) (w : world) : Prop :=
  match store w !! get_download_state_filename m3u8_url with
  | None | Some (Text (Encodes _)) => True
  | _ => False
  end.

(** The state a readable state file gives to [load_download_state]. *)
Definition stored_state (m3u8_url : str) (w : world) : state_dict :=
  match store w !! get_download_state_filename m3u8_url with
  | Some (Text (Encodes st)) => st
  | _ => default_state
  end.

End Plan.

(** A reply that [raise_for_status] lets through, and a reply that makes
    the fetch of a segment raise [e]. *)
Definition accepted (r : reply) : Prop :=
  match r with
  | Response status_code _ => ¬ (400 <= status_code < 600)%N
  | NoResponse _ => False
  end.

Definition refused (r : reply) (e : exn) : Prop :=
  match r with
  | Response status_code _ => (400 <= status_code < 600)%N /\ e = HTTPError status_code
  | NoResponse e' => e = e'
  end.

(** The requests for [urls], issued one after the other from [w] on, are
    all accepted. *)
Definition replies_accepted (w : world) (urls : list str) : Prop :=
  forall i u, urls !! i = Some u -> accepted (http w (length (wire w) + i) u).

(** ** Sample inputs *)

Definition lines_text (ls : list str) : str := join [NL] ls.

Definition marker_line : str := py "#EXT-X-DISCONTINUITY".

(** Seven markers and ten segments: segments 3-4 between markers 2 and 3,
    segments 7-8 between markers 4 and 5, nothing between markers 6 and 7. *)
Definition scenario_manifest : str :=
  lines_text
    [py "#EXTM3U";
     marker_line; py "s1.ts"; py "s2.ts";
     marker_line; py "s3.ts"; py "s4.ts";
     marker_line; py "s5.ts"; py "s6.ts";
     marker_line; py "s7.ts"; py "s8.ts";
     marker_line; py "s9.ts";
     marker_line;
     marker_line; py "s10.ts"; py "#EXT-X-ENDLIST"; []].

(** Seven markers and ten segments again, segments 3-4 between markers 2
    and 3 and segments 7-8 between markers 4 and 5, but with segment 10
    between markers 6 and 7. *)
Definition late_span_manifest : str :=
  lines_text
    [marker_line; py "s1.ts"; py "s2.ts";
     marker_line; py "s3.ts"; py "s4.ts";
     marker_line; py "s5.ts"; py "s6.ts";
     marker_line; py "s7.ts"; py "s8.ts";
     marker_line; py "s9.ts";
     marker_line; py "s10.ts";
     marker_line].

(** One marker, and the newline that ends the last line of a text file. *)
Definition one_marker_manifest : str :=
  lines_text [py "#EXTM3U"; marker_line; py "a.ts"; []].

(** No marker at all. *)
Definition plain_manifest : str :=
  lines_text [py "#EXTM3U"; py "a.ts"].

(** The library functions on the URLs of the samples below: absolute URLs
    [http://host/path?query], and references [path?query] without scheme,
    leading slash or dot segment, joined to a base that ends in a slash.
    On these [urljoin] appends the reference, [urlparse(url).path] is the
    text from the slash after the host up to the question mark, and the
    POSIX [os.path.basename] is the text after the last slash.  The MD5
    digest is tabulated for the one playlist URL used. *)
Definition QUESTION : N := 63%N.

Definition sample_m3u8_url : str := py "http://cdn.example/v/index.m3u8".
Definition sample_base_url : str := py "http://cdn.example/v/".

Definition sample_urljoin (base_url reference : str) : str := base_url ++ reference.

Definition sample_urlparse_path (url : str) : str :=
  [SLASH] ++ join [SLASH] (drop 3 (split SLASH (hd [] (split QUESTION url)))).

Definition sample_basename (path : str) : str :=
  default [] (last (split SLASH path)).

Definition sample_md5_hexdigest (s : str) : str :=
  if decide (s = sample_m3u8_url) then py "dfbac480de4df196c42d565aebce3ed5"
  else [].

Definition sample_library : Library :=
  {| urljoin := sample_urljoin;
     urlparse_path := sample_urlparse_path;
     os_path_basename := sample_basename;
     md5_hexdigest := sample_md5_hexdigest |}.

(** A filtered manifest of four segments; the path of the third one ends in
    a slash. *)
Definition sample_filtered : str :=
  lines_text [py "#EXTM3U"; py "seg_1.ts"; py "seg_2.ts"; py "part/?id=3.ts";
              py "seg_4.ts"; []].

Definition sample_plan : list (str * str) :=
  [(py "http://cdn.example/v/seg_1.ts", py "seg_1.ts");
   (py "http://cdn.example/v/seg_2.ts", py "seg_2.ts");
   (py "http://cdn.example/v/part/?id=3.ts", py "segment_2.ts");
   (py "http://cdn.example/v/seg_4.ts", py "seg_4.ts")].

Definition sample_state_file : str :=
  py "download_state_dfbac480de4df196c42d565aebce3ed5.json".

Definition packet : bytes := [x47; x00; x11].

(** A first run against a server that answers 200 to everything. *)
Definition fresh_world : world :=
  World ∅ ∅ [] (fun _ _ => Response 200 packet).

(** A resumed run: [seg_2.ts] is on disk and in the state file. *)
Definition resumed_world : world :=
  World {[ py "seg_2.ts" := packet ]}
        {[ sample_state_file :=
             Text (Encodes {| key_downloaded_segments := [py "seg_2.ts"];
                              key_total_segments := 4 |}) ]}
        [] (fun _ _ => Response 200 packet).

(** A first run in which the third request gets a 503. *)
Definition failing_world : world :=
  World ∅ ∅ []
        (fun n _ => if n =? 2 then Response 503 [] else Response 200 packet).

(** A first run against a server that answers 304 with an empty body. *)
Definition not_modified_world : world :=
  World ∅ ∅ [] (fun _ _ => Response 304 []).

(** The state file of the playlist holds text that is not JSON. *)
Definition corrupt_world : world :=
  World ∅ {[ sample_state_file := Text Garbage ]} [] (fun _ _ => Response 200 packet).

(** Three segment files of 10, 0 and 7 bytes. *)
Definition assembly_world : world :=
  World {[ py "a.ts" := repeat x47 10; py "b.ts" := []; py "c.ts" := repeat x00 7 ]}
        ∅ [] (fun _ _ => Response 200 packet).

(** The skip flag the filter holds once it has counted [c] markers: it is
    inside an ad span exactly after the second, fourth, ... marker. *)
Definition skip_of (c : nat) : bool := (2 <=? c) && (c mod 2 =? 0).

(** The lines the filter keeps of [lines] when [c] markers came before. *)
Definition kept_from (c : nat) (lines : list str) : list str :=
  filter_loop lines c (skip_of c) [].

(** The discontinuity markers among the lines, in order. *)
Definition marker_lines (lines : list str) : list str :=
  filter (fun line => is_discontinuity line = true) lines.

(** The first, third, fifth, ... element of a list. *)
Fixpoint odd_numbered {A} (l : list A) : list A :=
  match l with
  | [] => []
  | x :: rest =>
      x :: match rest with
           | [] => []
           | _ :: rest' => odd_numbered rest'
           end
  end.

(** Two markers and no third: the ad span that opens at the second marker
    is never closed. *)
Definition unclosed_manifest : str :=
  lines_text [py "#EXTM3U"; marker_line; py "a.ts"; marker_line; py "b.ts";
              py "#EXT-X-ENDLIST"; []].

(** The loop of [download_ts_segments] on the plan of the lines. *)
Fixpoint run_plain (plan : list (str * str)) (ts_files : list str) : M (list str) :=
  match plan with
  | [] => ret ts_files
  | (ts_url, filename) :: rest =>
      response <- requests_get ts_url ;;
      raise_for_status response ;;
      write_wb filename (snd response) ;;
      run_plain rest (ts_files ++ [filename])
  end.

(** The body of a reply, if it has one. *)
Definition body_of (r : reply) : bytes :=
  match r with
  | Response _ content => content
  | NoResponse _ => []
  end.

(** The state file lists all four segments of the sample, but the file of
    the last one is not on disk. *)
Definition stale_world : world :=
  World {[ py "seg_1.ts" := packet; py "seg_2.ts" := packet;
           py "segment_2.ts" := packet ]}
        {[ sample_state_file :=
             Text (Encodes {| key_downloaded_segments :=
                                [py "seg_1.ts"; py "seg_2.ts"; py "segment_2.ts";
                                 py "seg_4.ts"];
                              key_total_segments := 4 |}) ]}
        [] (fun _ _ => NoResponse ConnectionError).

Definition sample_names : list str :=
  [py "seg_1.ts"; py "seg_2.ts"; py "segment_2.ts"; py "seg_4.ts"].

(** A computation that changes nothing but the disk. *)
Definition disk_only {A} (c : M A) : Prop :=
  forall w w' r, c w = (w', r) ->
    store w' = store w /\ wire w' = wire w /\ http w' = http w.

(** The response object of a reply that is one. *)
Definition response_of (r : reply) : N * bytes :=
  match r with
  | Response status_code content => (status_code, content)
  | NoResponse _ => (0%N, [])
  end.

Section AfterFetch.
Context `{Library} `{Platform} `{Buffering}.

(** The steps of the entry points that follow the fetch of the segments:
    lines 45-57 and lines 302-318. *)
Definition after_fetch (output_filename : str) (ts_files : list str) : M unit :=
  concatenate_videos ts_files temp_ts_file ;;
  convert_ts_to_mp4 temp_ts_file output_filename ;;
  cleanup_temp_files temp_m3u8_path ts_files ;;
  try_except (os_remove temp_ts_file) is_Exception (fun _ => ret tt).

Definition after_fetch_with_resume (m3u8_url output_filename : str)
    (ts_files : list str) : M unit :=
  concatenate_videos ts_files temp_ts_file ;;
  convert_ts_to_mp4 temp_ts_file output_filename ;;
  cleanup_temp_files temp_m3u8_path ts_files ;;
  try_except
    (os_remove temp_ts_file ;;
     let state_file := get_download_state_filename m3u8_url in
     state_exists <- os_path_exists_state state_file ;;
     if state_exists then os_remove_state state_file else ret tt)
    is_Exception
    (fun _ => ret tt).

(** The filtered manifest the entry points work on, and its plan, when the
    reply to the manifest request is [r]. *)
Definition filtered_manifest (r : reply) : str :=
  filter_ad_segments (response_text (response_of r)).

Definition manifest_plan (m3u8_url : str) (r : reply) : list (str * str) :=
  segment_plan (base_url_of m3u8_url) (manifest_lines (filtered_manifest r)).

(** The world once the manifest has been requested and the filtered
    manifest written to its temporary file. *)
Definition world_with_manifest (m3u8_url : str) (w : world) : world :=
  World (<[temp_m3u8_path :=
             text_encode (filtered_manifest (http w (length (wire w)) m3u8_url))]>
           (disk w))
        (store w) (wire w ++ [m3u8_url]) (http w).

End AfterFetch.

(** A platform for the samples: texts are ASCII, one byte per character,
    and ffmpeg exits with return code 1 and changes no file. *)
Definition bytes_of_text (s : str) : bytes :=
  map (fun c => default x00 (Byte.of_N c)) s.

Definition text_of_bytes (b : bytes) : str := map Byte.to_N b.

Definition sample_platform : Platform :=
  {| response_text := fun response => text_of_bytes (snd response);
     text_encode := bytes_of_text;
     subprocess_run := fun _ files => Exited 1 files |}.

(** Writes that fit the buffer: nothing reaches a file before it is
    closed. *)
Definition sample_buffering : Buffering :=
  {| flushed := fun _ => 0 |}.

(** The manifest the sample server sends: one ad span, around [ad_1.ts]. *)
Definition served_manifest : str :=
  lines_text [py "#EXTM3U"; marker_line; py "seg_1.ts"; py "seg_2.ts";
              marker_line; py "ad_1.ts"; marker_line; py "part/?id=3.ts";
              py "seg_4.ts"; []].

Definition entry_http (n : nat) (url : str) : reply :=
  if n =? 0 then Response 200 (bytes_of_text served_manifest)
  else Response 200 packet.

(** A first run of an entry point, and a resumed one with [seg_2.ts]
    fetched before. *)
Definition entry_world : world := World ∅ ∅ [] entry_http.


(** The server answers 404 to the manifest request. *)
Definition entry_refused_world : world :=
  World ∅ ∅ [] (fun _ _ => Response 404 []).

(** The temporary manifest and two segment files are on disk. *)
Definition cleanup_world : world :=
  World {[ temp_m3u8_path := []; py "a.ts" := packet; py "b.ts" := packet ]}
        ∅ [] (fun _ _ => Response 200 packet).

(** * Properties *)

(** Closed decidable goals, by evaluation. *)
Ltac by_decide :=
  match goal with |- ?P => apply (bool_decide_unpack P); vm_compute; exact I end.

(** ** Strings *)

Lemma split_nonempty sep s : split sep s ≠ [].
Proof.
  destruct s as [|c r]; simpl; [done|].
  destruct (c =? sep)%N; [done|]. by destruct (split sep r).
Qed.

Lemma join_cons sep l l' ls :
  join sep (l :: l' :: ls) = l ++ sep ++ join sep (l' :: ls).
Proof. reflexivity. Qed.

Lemma join_split sep s : join [sep] (split sep s) = s.
Proof.
  induction s as [|c r IH]; [done|]. cbn [split].
  destruct (split sep r) as [|l ls] eqn:E; [by destruct (split_nonempty sep r)|].
  destruct (N.eqb_spec c sep) as [->|Hne].
  - rewrite join_cons, IH. done.
  - destruct ls as [|l' ls].
    + cbn in *. by rewrite IH.
    + rewrite join_cons in IH. rewrite join_cons, <- IH. done.
Qed.

Lemma split_no_sep sep s : Forall (fun l => sep ∉ l) (split sep s).
Proof.
  induction s as [|c r IH]; simpl.
  - repeat constructor. apply not_elem_of_nil.
  - destruct (N.eqb_spec c sep) as [->|Hne].
    + constructor; [apply not_elem_of_nil | done].
    + destruct (split sep r) as [|l ls]; simpl.
      * repeat constructor. rewrite list_elem_of_singleton. congruence.
      * inversion IH; subst. constructor; [|done].
        rewrite not_elem_of_cons. split; [congruence | done].
Qed.

Lemma split_line sep l : sep ∉ l -> split sep l = [l].
Proof.
  induction l as [|c r IH]; simpl; [done|].
  rewrite not_elem_of_cons. intros [Hne Hr].
  destruct (N.eqb_spec c sep) as [->|_]; [done|]. by rewrite IH.
Qed.

Lemma split_app_sep sep l s :
  sep ∉ l -> split sep (l ++ sep :: s) = l :: split sep s.
Proof.
  induction l as [|c r IH]; simpl.
  - intros _. by rewrite N.eqb_refl.
  - rewrite not_elem_of_cons. intros [Hne Hr].
    destruct (N.eqb_spec c sep) as [->|_]; [done|]. by rewrite IH.
Qed.

Lemma split_join sep ls :
  ls ≠ [] -> Forall (fun l => sep ∉ l) ls -> split sep (join [sep] ls) = ls.
Proof.
  induction ls as [|l ls IH]; [done|].
  intros _ Hall. inversion Hall as [|? ? Hl Hls]; subst.
  destruct ls as [|l' ls].
  - simpl. by apply split_line.
  - rewrite join_cons. simpl app.
    rewrite split_app_sep by done. f_equal. by apply IH.
Qed.

Lemma startswith_app p s : startswith p (p ++ s) = true.
Proof.
  induction p as [|a p IH]; simpl; [done|]. by rewrite N.eqb_refl, IH.
Qed.

Lemma startswith_spec p s : startswith p s = true <-> exists t, s = p ++ t.
Proof.
  split.
  - revert s. induction p as [|a p IH]; intros s Hs; simpl in *.
    + by exists s.
    + destruct s as [|b s]; [done|].
      apply andb_true_iff in Hs as [Hab Hs]. apply N.eqb_eq in Hab as ->.
      destruct (IH _ Hs) as [t ->]. by exists t.
  - intros [t ->]. apply startswith_app.
Qed.

Lemma endswith_spec p s : endswith p s = true <-> exists t, s = t ++ p.
Proof.
  unfold endswith. rewrite startswith_spec. split.
  - intros [t Ht]. exists (rev t).
    apply (f_equal (@rev N)) in Ht. rewrite rev_involutive in Ht.
    by rewrite Ht, rev_app_distr, rev_involutive.
  - intros [t ->]. exists (rev t). by rewrite rev_app_distr.
Qed.

Lemma rsplit1_no_sep sep s : sep ∉ s -> rsplit1 sep s = [s].
Proof.
  induction s as [|c r IH]; simpl; [done|].
  rewrite not_elem_of_cons. intros [Hne Hr]. rewrite IH by done.
  by destruct (N.eqb_spec c sep).
Qed.

Lemma rsplit1_last sep pre suf :
  sep ∉ suf -> rsplit1 sep (pre ++ sep :: suf) = [pre; suf].
Proof.
  intros Hsuf. induction pre as [|c r IH]; simpl.
  - rewrite rsplit1_no_sep by done. by rewrite N.eqb_refl.
  - by rewrite IH.
Qed.

(** ** The ad filter *)

Lemma filter_loop_cons line rest c s acc :
  filter_loop (line :: rest) c s acc =
    if is_discontinuity line then
      if c + 1 =? 1 then filter_loop rest (c + 1) false (acc ++ [line])
      else if (c + 1) mod 2 =? 0 then filter_loop rest (c + 1) true acc
      else filter_loop rest (c + 1) false (acc ++ [line])
    else if negb s then filter_loop rest c s (acc ++ [line])
    else filter_loop rest c s acc.
Proof. reflexivity. Qed.

Lemma filter_loop_acc lines c s acc :
  filter_loop lines c s acc = acc ++ filter_loop lines c s [].
Proof.
  revert c s acc. induction lines as [|line rest IH]; intros c s acc.
  - cbn [filter_loop]. by rewrite app_nil_r.
  - rewrite !filter_loop_cons.
    destruct (is_discontinuity line), (c + 1 =? 1), ((c + 1) mod 2 =? 0), s;
      cbn [negb];
      rewrite ?(IH _ _ (acc ++ [line])), ?(IH _ _ ([] ++ [line])), <- ?app_assoc;
      first [reflexivity | apply IH].
Qed.

Lemma filter_loop_marker line rest c s :
  is_discontinuity line = true ->
  filter_loop (line :: rest) c s [] =
    if c + 1 =? 1 then line :: filter_loop rest (c + 1) false []
    else if (c + 1) mod 2 =? 0 then filter_loop rest (c + 1) true []
    else line :: filter_loop rest (c + 1) false [].
Proof.
  intros Hd. rewrite filter_loop_cons, Hd.
  destruct (c + 1 =? 1), ((c + 1) mod 2 =? 0);
    rewrite ?(filter_loop_acc _ _ _ ([] ++ [line])); reflexivity.
Qed.

Lemma filter_loop_other line rest c s :
  is_discontinuity line = false ->
  filter_loop (line :: rest) c s [] =
    if s then filter_loop rest c s [] else line :: filter_loop rest c s [].
Proof.
  intros Hd. rewrite filter_loop_cons, Hd.
  destruct s; cbn [negb]; rewrite ?(filter_loop_acc _ _ _ ([] ++ [line])); reflexivity.
Qed.

Lemma filter_loop_gap g rest c s :
  Forall (fun l => is_discontinuity l = false) g ->
  filter_loop (g ++ rest) c s [] =
    (if s then [] else g) ++ filter_loop rest c s [].
Proof.
  induction 1 as [|l g Hl _ IH]; [by destruct s|].
  cbn [app]. rewrite filter_loop_other by done. rewrite IH. by destruct s.
Qed.

Lemma filter_loop_sublist lines c s :
  filter_loop lines c s [] `sublist_of` lines.
Proof.
  revert c s. induction lines as [|line rest IH]; intros c s; [done|].
  destruct (is_discontinuity line) eqn:Hd.
  - rewrite filter_loop_marker by done.
    destruct (c + 1 =? 1), ((c + 1) mod 2 =? 0);
      first [by apply sublist_skip | by apply sublist_cons].
  - rewrite filter_loop_other by done.
    destruct s; [by apply sublist_cons | by apply sublist_skip].
Qed.

Lemma parity_rule_filter_loop lines c s :
  parity_rule c s lines (filter_loop lines c s []).
Proof.
  revert c s. induction lines as [|line rest IH]; intros c s.
  - constructor.
  - destruct (is_discontinuity line) eqn:Hd.
    + rewrite filter_loop_marker by done.
      destruct (Nat.eqb_spec (c + 1) 1) as [H1|H1].
      * by apply rule_first.
      * destruct (Nat.eqb_spec ((c + 1) mod 2) 0) as [H2|H2].
        -- apply rule_even; [done| |done].
           exists ((c + 1) / 2). pose proof (Nat.div_mod_eq (c + 1) 2). lia.
        -- apply rule_odd; [done| |lia|done].
           exists ((c + 1) / 2). pose proof (Nat.div_mod_eq (c + 1) 2).
           pose proof (Nat.mod_upper_bound (c + 1) 2). lia.
    + rewrite filter_loop_other by done.
      destruct s; [by apply rule_drop | by apply rule_emit].
Qed.

Lemma parity_rule_functional c s lines out :
  parity_rule c s lines out -> out = filter_loop lines c s [].
Proof.
  induction 1 as [c s|c s line rest out Hd H1 _ IH|c s line rest out Hd [m Hm] _ IH
                 |c s line rest out Hd [m Hm] H1 _ IH
                 |c line rest out Hd _ IH|c line rest out Hd _ IH].
  - done.
  - rewrite filter_loop_marker by done.
    destruct (Nat.eqb_spec (c + 1) 1); [by rewrite IH | done].
  - rewrite filter_loop_marker by done.
    destruct (Nat.eqb_spec (c + 1) 1); [lia|].
    destruct (Nat.eqb_spec ((c + 1) mod 2) 0) as [|H2]; [done|].
    exfalso. apply H2. rewrite Hm, Nat.mul_comm. apply Nat.Div0.mod_mul.
  - rewrite filter_loop_marker by done.
    destruct (Nat.eqb_spec (c + 1) 1); [lia|].
    destruct (Nat.eqb_spec ((c + 1) mod 2) 0) as [H2|]; [|by rewrite IH].
    exfalso. rewrite Hm, Nat.add_comm, Nat.mul_comm, Nat.Div0.mod_add in H2.
    done.
  - rewrite filter_loop_other by done. by rewrite IH.
  - by rewrite filter_loop_other.
Qed.

Lemma Forall_of_sublist {A} (P : A -> Prop) (k l : list A) :
  k `sublist_of` l -> Forall P l -> Forall P k.
Proof.
  induction 1 as [|x k l _ IH|x k l _ IH]; intros Hl; [done| |];
    inversion Hl; subst; auto.
Qed.

(** The filter keeps the first line, so its output is never empty. *)
Lemma filter_loop_nonempty lines :
  lines ≠ [] -> filter_loop lines 0 false [] ≠ [].
Proof.
  destruct lines as [|line rest]; [done|]. intros _.
  destruct (is_discontinuity line) eqn:Hd.
  - by rewrite filter_loop_marker.
  - by rewrite filter_loop_other.
Qed.

(** The lines of the filtered text are the lines the loop kept. *)
Lemma filter_ad_segments_lines content :
  split NL (filter_ad_segments content) = filtered_lines_of content.
Proof.
  unfold filter_ad_segments, filtered_lines_of, manifest_lines.
  apply split_join.
  - apply filter_loop_nonempty, split_nonempty.
  - eapply Forall_of_sublist; [apply filter_loop_sublist | apply split_no_sep].
Qed.

Lemma segment_lines_app l k :
  segment_lines (l ++ k) = segment_lines l ++ segment_lines k.
Proof. apply filter_app. Qed.

Lemma segment_lines_skip x l :
  is_ts x = false -> segment_lines (x :: l) = segment_lines l.
Proof.
  intros Hx. unfold segment_lines. rewrite filter_cons.
  destruct (decide (is_ts x = true)); congruence.
Qed.

Lemma segment_lines_nil l :
  segment_lines l = [] -> Forall (fun x => is_ts x = false) l.
Proof.
  unfold segment_lines. induction l as [|x l IH]; [constructor|].
  rewrite filter_cons. destruct (decide (is_ts x = true)) as [|Hx]; [done|].
  intros Hl. constructor; [by destruct (is_ts x) | auto].
Qed.

(** C1, as amended.  [filter_ad_segments] is the discontinuity-parity
    rule: the walk of the rule over the trimmed, newline-split lines emits
    exactly one sequence of lines, and the function returns those lines
    joined by newlines.  In the scenario with seven markers [d1..d7] and
    ten segments [s1..s10], segments 3-4 between markers 2 and 3, segments
    7-8 between markers 4 and 5 and none between markers 6 and 7, the
    segments of the output are 1, 2, 5, 6, 9 and 10. *)
Theorem filter_ad_segments_parity_rule (content : str) :
  (exists out,
      parity_rule 0 false (manifest_lines content) out
      /\ (forall out', parity_rule 0 false (manifest_lines content) out' -> out' = out)
      /\ filter_ad_segments content = join [NL] out)
  /\ (forall d1 d2 d3 d4 d5 d6 d7 g0 g1 g2 g3 g4 g5 g6 g7
             s1 s2 s3 s4 s5 s6 s7 s8 s9 s10,
        manifest_lines content =
          g0 ++ d1 :: g1 ++ d2 :: g2 ++ d3 :: g3 ++ d4 :: g4 ++ d5 :: g5
             ++ d6 :: g6 ++ d7 :: g7 ->
        Forall (fun d => is_discontinuity d = true) [d1; d2; d3; d4; d5; d6; d7] ->
        Forall (fun g => Forall (fun l => is_discontinuity l = false) g)
               [g0; g1; g2; g3; g4; g5; g6; g7] ->
        segment_lines [d1; d2; d3; d4; d5; d6; d7] = [] ->
        segment_lines (g0 ++ g1) = [s1; s2] ->
        segment_lines g2 = [s3; s4] ->
        segment_lines g3 = [s5; s6] ->
        segment_lines g4 = [s7; s8] ->
        segment_lines g6 = [] ->
        segment_lines (g5 ++ g7) = [s9; s10] ->
        segment_lines (split NL (filter_ad_segments content))
          = [s1; s2; s5; s6; s9; s10]).
Proof.
  split.
  - exists (filtered_lines_of content). split; [|split].
    + apply parity_rule_filter_loop.
    + intros out'. apply parity_rule_functional.
    + reflexivity.
  - intros d1 d2 d3 d4 d5 d6 d7 g0 g1 g2 g3 g4 g5 g6 g7
           s1 s2 s3 s4 s5 s6 s7 s8 s9 s10 Hlines Hd Hg Hds H12 H34 H56 H78 Hg6 H910.
    rewrite filter_ad_segments_lines. unfold filtered_lines_of. rewrite Hlines.
    repeat match goal with
           | H : Forall _ (_ :: _) |- _ => apply Forall_cons_1 in H as [? H]
           end.
    repeat (rewrite filter_loop_gap by done;
            rewrite filter_loop_marker by done; cbn [Nat.eqb Nat.add Nat.modulo Nat.divmod fst snd Nat.sub]).
    rewrite <- (app_nil_r g7). rewrite filter_loop_gap by done.
    cbn [filter_loop]. rewrite !app_nil_r. cbn [app].
    apply segment_lines_nil in Hds.
    repeat match goal with
           | H : Forall _ (_ :: _) |- _ => apply Forall_cons_1 in H as [? H]
           end.
    rewrite segment_lines_app in H12, H910.
    rewrite !segment_lines_app, !segment_lines_skip by done.
    rewrite !segment_lines_app, !segment_lines_skip by done.
    rewrite !segment_lines_app, !segment_lines_skip by done.
    rewrite !segment_lines_app, !segment_lines_skip by done.
    rewrite H56, app_assoc, H12, H910. reflexivity.
Qed.

Lemma filter_ad_segments_scenario :
  segment_lines (split NL (filter_ad_segments scenario_manifest))
  = [py "s1.ts"; py "s2.ts"; py "s5.ts"; py "s6.ts"; py "s9.ts"; py "s10.ts"].
Proof.
  apply (proj2 (filter_ad_segments_parity_rule scenario_manifest)
           marker_line marker_line marker_line marker_line marker_line
           marker_line marker_line
           [py "#EXTM3U"] [py "s1.ts"; py "s2.ts"] [py "s3.ts"; py "s4.ts"]
           [py "s5.ts"; py "s6.ts"] [py "s7.ts"; py "s8.ts"] [py "s9.ts"] []
           [py "s10.ts"; py "#EXT-X-ENDLIST"]
           (py "s1.ts") (py "s2.ts") (py "s3.ts") (py "s4.ts") (py "s5.ts")
           (py "s6.ts") (py "s7.ts") (py "s8.ts") (py "s9.ts") (py "s10.ts"));
    try (vm_compute; reflexivity);
    repeat (constructor; try (vm_compute; reflexivity)).
Defined.

(** C1, as worded, leaves open where segments 9 and 10 lie.  With segment
    10 between markers 6 and 7 the manifest still has seven markers and ten
    segments, segments 3-4 between markers 2 and 3 and segments 7-8 between
    markers 4 and 5, and the rule drops segment 10 with the third ad span:
    the output retains segments 1, 2, 5, 6 and 9. *)
Lemma filter_ad_segments_late_span :
  manifest_lines late_span_manifest
  = marker_line :: [py "s1.ts"; py "s2.ts"]
    ++ marker_line :: [py "s3.ts"; py "s4.ts"]
    ++ marker_line :: [py "s5.ts"; py "s6.ts"]
    ++ marker_line :: [py "s7.ts"; py "s8.ts"]
    ++ marker_line :: [py "s9.ts"]
    ++ marker_line :: [py "s10.ts"]
    ++ [marker_line]
  /\ marker_count (manifest_lines late_span_manifest) = 7
  /\ segment_lines (manifest_lines late_span_manifest)
     = [py "s1.ts"; py "s2.ts"; py "s3.ts"; py "s4.ts"; py "s5.ts"; py "s6.ts";
        py "s7.ts"; py "s8.ts"; py "s9.ts"; py "s10.ts"]
  /\ segment_lines (split NL (filter_ad_segments late_span_manifest))
     = [py "s1.ts"; py "s2.ts"; py "s5.ts"; py "s6.ts"; py "s9.ts"]
  /\ segment_lines (split NL (filter_ad_segments late_span_manifest))
     ≠ [py "s1.ts"; py "s2.ts"; py "s5.ts"; py "s6.ts"; py "s9.ts"; py "s10.ts"].
Proof.
  repeat split; try (vm_compute; reflexivity). vm_compute. discriminate.
Qed.

Lemma filter_loop_few_markers lines c :
  c + marker_count lines <= 1 -> filter_loop lines c false [] = lines.
Proof.
  revert c. induction lines as [|line rest IH]; intros c; [done|].
  unfold marker_count. rewrite filter_cons.
  destruct (is_discontinuity line) eqn:Hd.
  - rewrite decide_True by done. cbn [length]. intros Hc.
    rewrite filter_loop_marker by done.
    assert (c = 0) as -> by lia. cbn [Nat.add Nat.eqb].
    f_equal. apply (IH 1). unfold marker_count. lia.
  - rewrite decide_False by done. intros Hc.
    rewrite filter_loop_other by done. f_equal. by apply IH.
Qed.

Lemma filter_loop_length lines c s :
  length (filter_loop lines c s []) <= length lines.
Proof. apply sublist_length, filter_loop_sublist. Qed.

Lemma filter_loop_drops_after_first lines c :
  Nat.Odd c -> 1 <= marker_count lines ->
  length (filter_loop lines c false []) < length lines.
Proof.
  intros [m ->]. induction lines as [|line rest IH]; [cbn; lia|].
  unfold marker_count. rewrite filter_cons.
  destruct (is_discontinuity line) eqn:Hd.
  - intros _. rewrite filter_loop_marker by done.
    destruct (Nat.eqb_spec (2 * m + 1 + 1) 1); [lia|].
    destruct (Nat.eqb_spec ((2 * m + 1 + 1) mod 2) 0) as [|H2].
    + pose proof (filter_loop_length rest (2 * m + 1 + 1) true). cbn [length]. lia.
    + exfalso. apply H2.
      replace (2 * m + 1 + 1) with ((m + 1) * 2) by lia. apply Nat.Div0.mod_mul.
  - rewrite decide_False by done. intros Hc.
    rewrite filter_loop_other by done. cbn [length].
    apply IH in Hc. lia.
Qed.

Lemma filter_loop_drops lines :
  2 <= marker_count lines ->
  length (filter_loop lines 0 false []) < length lines.
Proof.
  induction lines as [|line rest IH]; [cbn; lia|].
  unfold marker_count. rewrite filter_cons.
  destruct (is_discontinuity line) eqn:Hd.
  - rewrite decide_True by done. cbn [length]. intros Hc.
    rewrite filter_loop_marker by done. cbn [Nat.add Nat.eqb length].
    pose proof (filter_loop_drops_after_first rest 1) as Hr.
    unfold marker_count in Hr. apply Arith_base.lt_n_S_stt, Hr; [by exists 0 | lia].
  - rewrite decide_False by done. intros Hc.
    rewrite filter_loop_other by done. cbn [length].
    apply IH in Hc. lia.
Qed.

(** C5 (as amended).  On a manifest with exactly one discontinuity marker
    the filter drops no line: it returns its input trimmed of leading and
    trailing whitespace, hence the input itself when the input has none. *)
Theorem filter_ad_segments_one_marker (content : str) :
  marker_count (manifest_lines content) = 1 ->
  filtered_lines_of content = manifest_lines content
  /\ filter_ad_segments content = strip content
  /\ (strip content = content -> filter_ad_segments content = content).
Proof.
  intros H1.
  assert (filtered_lines_of content = manifest_lines content) as Hl.
  { apply filter_loop_few_markers. lia. }
  assert (filter_ad_segments content = strip content) as Hf.
  { change (filter_ad_segments content) with (join [NL] (filtered_lines_of content)).
    rewrite Hl. apply join_split. }
  split; [done|]. split; [done|]. intros Hs. by rewrite Hf.
Qed.

Lemma filter_ad_segments_one_marker_sample :
  filtered_lines_of one_marker_manifest = manifest_lines one_marker_manifest
  /\ filter_ad_segments one_marker_manifest = strip one_marker_manifest
  /\ (strip one_marker_manifest = one_marker_manifest ->
      filter_ad_segments one_marker_manifest = one_marker_manifest).
Proof.
  apply (filter_ad_segments_one_marker one_marker_manifest).
  vm_compute. reflexivity.
Defined.

(** The claim as first worded fails: with one marker and a final newline
    the output is not the input. *)
Lemma filter_ad_segments_not_identity :
  marker_count (manifest_lines one_marker_manifest) = 1
  /\ filter_ad_segments one_marker_manifest
     = lines_text [py "#EXTM3U"; marker_line; py "a.ts"]
  /\ filter_ad_segments one_marker_manifest ≠ one_marker_manifest.
Proof.
  split; [|split]; [vm_compute; reflexivity..|].
  intros Heq. apply (f_equal length) in Heq. vm_compute in Heq. discriminate.
Qed.

(** C9 (as amended).  The lines of the filtered manifest are a subsequence
    of the lines of the trimmed input, so never more of them; they are
    strictly fewer exactly when the input has at least two discontinuity
    markers. *)
Theorem filter_ad_segments_subsequence (content : str) :
  split NL (filter_ad_segments content) `sublist_of` manifest_lines content
  /\ length (split NL (filter_ad_segments content)) <= length (manifest_lines content)
  /\ (length (split NL (filter_ad_segments content)) < length (manifest_lines content)
      <-> 2 <= marker_count (manifest_lines content)).
Proof.
  rewrite filter_ad_segments_lines. unfold filtered_lines_of.
  split; [apply filter_loop_sublist|]. split; [apply filter_loop_length|].
  split.
  - intros Hlt. destruct (decide (2 <= marker_count (manifest_lines content))); [done|].
    rewrite filter_loop_few_markers in Hlt; lia.
  - apply filter_loop_drops.
Qed.

(** The claim as first worded fails: a manifest without markers comes out
    with all of its lines. *)
Lemma filter_ad_segments_not_shorter :
  split NL (filter_ad_segments plain_manifest) = manifest_lines plain_manifest
  /\ length (manifest_lines plain_manifest) = 2
  /\ ¬ (length (split NL (filter_ad_segments plain_manifest))
        < length (manifest_lines plain_manifest)).
Proof.
  split; [|split]; [vm_compute; reflexivity..|].
  vm_compute. lia.
Qed.

(** C10.  The two definitions of [filter_ad_segments] in the source return
    the same text on every input. *)
Theorem filter_ad_segments_definitions_agree (content : str) :
  filter_ad_segments_first content = filter_ad_segments content.
Proof.
  unfold filter_ad_segments_first, filter_ad_segments.
  generalize (split NL (strip content)) 0 false (@nil str).
  intros lines. induction lines as [|line rest IH]; intros c s acc; [done|].
  cbn [filter_loop_first filter_loop join].
  destruct (startswith (py "#EXT-X-DISCONTINUITY") line); cbv zeta.
  - destruct (c + 1 =? 1); [apply IH|]. destruct ((c + 1) mod 2 =? 0); apply IH.
  - destruct (negb s); apply IH.
Qed.

(** ** Output file name *)

(** C7.  The normalised output name always ends in [.mp4]; a name that
    already ends in [.mp4] is unchanged; any other name loses its last
    dot-delimited suffix, if it has one, and gets [.mp4] appended. *)
Theorem normalize_output_filename_mp4 (output_filename : str) :
  endswith (py ".mp4") (normalize_output_filename output_filename) = true
  /\ (endswith (py ".mp4") output_filename = true ->
      normalize_output_filename output_filename = output_filename)
  /\ (endswith (py ".mp4") output_filename = false ->
      (DOT ∉ output_filename ->
       normalize_output_filename output_filename = output_filename ++ py ".mp4")
      /\ (forall base suffix,
            output_filename = base ++ DOT :: suffix -> DOT ∉ suffix ->
            normalize_output_filename output_filename = base ++ py ".mp4")).
Proof.
  unfold normalize_output_filename.
  destruct (endswith (py ".mp4") output_filename) eqn:E; cbn [negb].
  - split; [done|]. split; [done|]. discriminate.
  - split; [apply endswith_spec; eauto|]. split; [discriminate|].
    intros _. split.
    + intros Hdot. by rewrite rsplit1_no_sep.
    + intros base suffix -> Hdot. by rewrite rsplit1_last.
Qed.

Lemma normalize_output_filename_samples :
  normalize_output_filename (py "video") = py "video.mp4"
  /\ normalize_output_filename (py "video.mkv") = py "video.mp4"
  /\ normalize_output_filename (py "video.mp4") = py "video.mp4".
Proof.
  split; [|split].
  - apply (proj1 (proj2 (proj2 (normalize_output_filename_mp4 (py "video")))
                   eq_refl)).
    by_decide.
  - apply (proj2 (proj2 (proj2 (normalize_output_filename_mp4 (py "video.mkv")))
                   eq_refl) (py "video") (py "mkv") eq_refl).
    by_decide.
  - apply (proj1 (proj2 (normalize_output_filename_mp4 (py "video.mp4"))) eq_refl).
Defined.

(** ** The resume state and the fetchers *)

Section FetcherProperties.
Context `{Library}.

Lemma load_download_state_eq m3u8_url w :
  load_download_state m3u8_url w =
    (w, match store w !! get_download_state_filename m3u8_url with
        | None => Returned default_state
        | Some Locked => Raised PermissionError
        | Some (Text Garbage) => Raised JSONDecodeError
        | Some (Text (Encodes st)) => Returned st
        end).
Proof.
  unfold load_download_state, try_except, bind, open_r.
  destruct (store w !! get_download_state_filename m3u8_url) as [[|[st|]]|];
    reflexivity.
Qed.

Lemma load_download_state_readable m3u8_url w :
  state_readable m3u8_url w ->
  load_download_state m3u8_url w = (w, Returned (stored_state m3u8_url w)).
Proof.
  rewrite load_download_state_eq. unfold state_readable, stored_state.
  by destruct (store w !! get_download_state_filename m3u8_url) as [[|[st|]]|].
Qed.

Lemma save_download_state_eq m3u8_url st w :
  store w !! get_download_state_filename m3u8_url ≠ Some Locked ->
  save_download_state m3u8_url st w =
    (World (disk w)
           (<[get_download_state_filename m3u8_url := Text (Encodes st)]> (store w))
           (wire w) (http w),
     Returned tt).
Proof.
  unfold save_download_state, json_dump_w.
  by destruct (store w !! get_download_state_filename m3u8_url) as [[|?]|].
Qed.

Lemma error_status_iff status_code :
  ((400 <=? status_code) && (status_code <? 600))%N = true
  <-> (400 <= status_code < 600)%N.
Proof. rewrite andb_true_iff, N.leb_le, N.ltb_lt. done. Qed.

(** One fetch whose reply is accepted: the file is written, the name goes
    to the downloaded list, and the state is saved. *)
Lemma fetch_segment_accepted ts_url filename m3u8_url ts_files dl st w :
  accepted (http w (length (wire w)) ts_url) ->
  store w !! get_download_state_filename m3u8_url ≠ Some Locked ->
  exists content,
    let st' := {| key_downloaded_segments := add_new dl filename;
                  key_total_segments := key_total_segments st |} in
    fetch_segment ts_url filename m3u8_url ts_files dl st w =
      (World (<[filename := content]> (disk w))
             (<[get_download_state_filename m3u8_url := Text (Encodes st')]> (store w))
             (wire w ++ [ts_url]) (http w),
       Returned (ts_files ++ [filename], add_new dl filename, st')).
Proof.
  intros Hacc Hlock.
  unfold fetch_segment, try_except, bind, requests_get, raise_for_status.
  destruct (http w (length (wire w)) ts_url) as [status_code content|e];
    [|done].
  exists content. cbn [fst snd accepted] in *.
  rewrite <- error_status_iff in Hacc.
  destruct ((400 <=? status_code) && (status_code <? 600))%N; [done|].
  unfold ret, write_wb. cbn [disk store wire http].
  rewrite save_download_state_eq by done. reflexivity.
Qed.

(** One fetch whose reply is refused: the request was made, the exception
    goes up, and neither the disk nor the state files changed. *)
Lemma fetch_segment_refused ts_url filename m3u8_url ts_files dl st w e :
  refused (http w (length (wire w)) ts_url) e ->
  fetch_segment ts_url filename m3u8_url ts_files dl st w =
    (World (disk w) (store w) (wire w ++ [ts_url]) (http w), Raised e).
Proof.
  intros Href.
  unfold fetch_segment, try_except, bind, requests_get, raise_for_status.
  destruct (http w (length (wire w)) ts_url) as [status_code content|e'];
    cbn [refused fst] in *.
  - destruct Href as [Hs ->]. apply error_status_iff in Hs. by rewrite Hs.
  - by subst.
Qed.

(** Whatever the reply, one fetch makes exactly one request, leaves every
    other file alone, and appends the name when it returns. *)
Lemma fetch_segment_trace ts_url filename m3u8_url ts_files dl st w w' r :
  fetch_segment ts_url filename m3u8_url ts_files dl st w = (w', r) ->
  wire w' = wire w ++ [ts_url]
  /\ http w' = http w
  /\ (forall g, g ≠ filename -> disk w' !! g = disk w !! g)
  /\ (forall x, r = Returned x -> x.1.1 = ts_files ++ [filename]).
Proof.
  unfold fetch_segment, try_except, bind, requests_get, raise_for_status.
  destruct (http w (length (wire w)) ts_url) as [status_code content|e'];
    cbn [fst snd].
  - destruct ((400 <=? status_code) && (status_code <? 600))%N.
    + intros [= <- <-]. by cbn.
    + unfold ret, write_wb, save_download_state, json_dump_w.
      cbn [disk store wire http].
      destruct (store w !! get_download_state_filename m3u8_url) as [[|?]|];
        intros [= <- <-]; cbn [disk store wire http];
        (split; [done|]; split; [done|]; split;
         [by intros g Hg; rewrite lookup_insert_ne | by intros x [= <-]]).
  - intros [= <- <-]. by cbn.
Qed.

Lemma pending_cons_skip completed (p : str * str) plan :
  p.2 ∈ completed -> pending completed (p :: plan) = pending completed plan.
Proof. intros Hp. unfold pending. rewrite filter_cons. by rewrite decide_False by auto. Qed.

Lemma pending_cons_keep completed (p : str * str) plan :
  p.2 ∉ completed -> pending completed (p :: plan) = p :: pending completed plan.
Proof. intros Hp. unfold pending. rewrite filter_cons. by rewrite decide_True. Qed.

Lemma run_plan_app p1 p2 completed m3u8_url ts_files dl st w :
  run_plan (p1 ++ p2) completed m3u8_url ts_files dl st w =
    bind (run_plan p1 completed m3u8_url ts_files dl st)
         (fun x => run_plan p2 completed m3u8_url x.1.1 x.1.2 x.2) w.
Proof.
  revert ts_files dl st w.
  induction p1 as [|[u f] p1 IH]; intros ts_files dl st w; [done|].
  cbn [app run_plan]. case_bool_decide; [apply IH|].
  unfold bind.
  destruct (fetch_segment u f m3u8_url ts_files dl st w) as [w1 [x|e]]; [|done].
  rewrite IH. reflexivity.
Qed.

(** The loop when every request is accepted. *)
Lemma run_plan_accepted plan completed m3u8_url ts_files dl st w :
  store w !! get_download_state_filename m3u8_url = Some (Text (Encodes st)) ->
  key_downloaded_segments st = dl ->
  replies_accepted w (map fst (pending completed plan)) ->
  let dl' := add_all dl (map snd (pending completed plan)) in
  let st' := {| key_downloaded_segments := dl';
                key_total_segments := key_total_segments st |} in
  exists w',
    run_plan plan completed m3u8_url ts_files dl st w =
      (w', Returned (ts_files ++ map snd plan, dl', st'))
    /\ wire w' = wire w ++ map fst (pending completed plan)
    /\ store w' =
         <[get_download_state_filename m3u8_url := Text (Encodes st')]> (store w)
    /\ http w' = http w
    /\ (forall g, g ∉ map snd (pending completed plan) -> disk w' !! g = disk w !! g).
Proof.
  revert ts_files dl st w.
  induction plan as [|[u f] plan IH]; intros ts_files dl st w Hst Hdl Hok.
  - exists w. cbn. rewrite !app_nil_r. destruct st as [d t]; cbn in *; subst.
    repeat split; [|done..]. by rewrite insert_id.
  - cbn [run_plan]. case_bool_decide as Hf.
    + rewrite pending_cons_skip in * by done.
      destruct (IH (ts_files ++ [f]) dl st w Hst Hdl Hok) as (w' & Hrun & Hrest).
      exists w'. split; [|done]. rewrite Hrun. cbn [map snd]. by rewrite <- app_assoc.
    + rewrite pending_cons_keep in * by done. cbn [map fst snd] in *.
      assert (accepted (http w (length (wire w)) u)) as Hacc.
      { specialize (Hok 0 u eq_refl). by rewrite Nat.add_0_r in Hok. }
      destruct (fetch_segment_accepted u f m3u8_url ts_files dl st w Hacc)
        as [content Hfetch]; [by rewrite Hst|].
      cbv zeta in Hfetch. unfold bind. rewrite Hfetch. cbn [fst snd].
      set (st1 := {| key_downloaded_segments := add_new dl f;
                     key_total_segments := key_total_segments st |}).
      set (w1 := World _ _ _ _).
      destruct (IH (ts_files ++ [f]) (add_new dl f) st1 w1) as (w' & Hrun & Hw & Hs & Hh & Hd).
      * subst w1. cbn. by rewrite lookup_insert_eq.
      * done.
      * intros i u' Hi. subst w1. cbn [wire http]. rewrite length_app. cbn [length].
        replace (length (wire w) + 1 + i) with (length (wire w) + S i) by lia.
        by apply Hok.
      * exists w'. subst w1 st1. cbn [wire store http disk key_total_segments] in *.
        split; [|split; [|split; [|split]]].
        -- rewrite Hrun. by rewrite <- app_assoc.
        -- rewrite Hw. by rewrite <- app_assoc.
        -- rewrite Hs. by rewrite insert_insert_eq.
        -- done.
        -- intros g Hg. apply not_elem_of_cons in Hg as [Hgf Hg].
           rewrite Hd by done. by rewrite lookup_insert_ne.
Qed.

(** The loop whatever the replies: the requests it makes are the first few
    of the pending segments, in order and once each; files other than
    those of the pending segments are left alone; and if it returns, it
    returns the names of all segments in order. *)
Lemma run_plan_trace plan completed m3u8_url ts_files dl st w w' r :
  run_plan plan completed m3u8_url ts_files dl st w = (w', r) ->
  (exists k, wire w' = wire w ++ take k (map fst (pending completed plan)))
  /\ http w' = http w
  /\ (forall g, g ∉ map snd (pending completed plan) -> disk w' !! g = disk w !! g)
  /\ (forall x, r = Returned x ->
        x.1.1 = ts_files ++ map snd plan
        /\ wire w' = wire w ++ map fst (pending completed plan)).
Proof.
  revert ts_files dl st w.
  induction plan as [|[u f] plan IH]; intros ts_files dl st w.
  - intros [= <- <-]. split; [exists 0; by rewrite app_nil_r|].
    split; [done|]. split; [done|]. intros x [= <-]. by rewrite !app_nil_r.
  - cbn [run_plan]. case_bool_decide as Hf.
    + rewrite pending_cons_skip by done. intros Hrun.
      destruct (IH _ _ _ _ Hrun) as (Hk & Hh & Hd & Hx).
      split; [done|]. split; [done|]. split; [done|].
      intros x Hr. destruct (Hx x Hr) as [-> ->].
      cbn [map snd]. by rewrite <- app_assoc.
    + rewrite pending_cons_keep by done. cbn [map fst snd].
      unfold bind.
      destruct (fetch_segment u f m3u8_url ts_files dl st w) as [w1 [x1|e]] eqn:Hfetch.
      * destruct (fetch_segment_trace _ _ _ _ _ _ _ _ _ Hfetch) as (Hw1 & Hh1 & Hd1 & Hx1).
        intros Hrun. destruct (IH _ _ _ _ Hrun) as ([k Hk] & Hh & Hd & Hx).
        split; [exists (S k); rewrite Hk, Hw1; by rewrite <- app_assoc|].
        split; [congruence|]. split.
        -- intros g Hg. apply not_elem_of_cons in Hg as [Hgf Hg].
           rewrite Hd by done. by apply Hd1.
        -- intros x Hr. destruct (Hx x Hr) as [-> ->].
           rewrite (Hx1 x1 eq_refl), Hw1. by rewrite <- !app_assoc.
      * destruct (fetch_segment_trace _ _ _ _ _ _ _ _ _ Hfetch) as (Hw1 & Hh1 & Hd1 & _).
        intros [= <- <-].
        split; [exists 1; by rewrite Hw1|]. split; [done|]. split; [|done].
        intros g Hg. apply not_elem_of_cons in Hg as [Hgf Hg]. by apply Hd1.
Qed.

Lemma segment_lines_cons line rest :
  segment_lines (line :: rest) =
    if is_ts line then line :: segment_lines rest else segment_lines rest.
Proof.
  unfold segment_lines. rewrite filter_cons.
  destruct (is_ts line); [by rewrite decide_True | by rewrite decide_False].
Qed.

Lemma plan_from_lookup base_url n segments k :
  plan_from base_url n segments !! k =
    (fun line => (urljoin base_url line,
                  segment_filename (urljoin base_url line) (n + k)))
      <$> segments !! k.
Proof.
  revert n k. induction segments as [|line rest IH]; intros n k; [done|].
  destruct k as [|k]; cbn [plan_from].
  - cbn. by rewrite Nat.add_0_r.
  - cbn [lookup list_lookup]. rewrite IH. by replace (S n + k) with (n + S k) by lia.
Qed.

(** The loop over the lines is the loop over their plan. *)
Lemma resume_loop_run_plan lines base_url completed m3u8_url ts_files dl st w :
  resume_loop lines base_url completed m3u8_url ts_files dl st w =
    bind (run_plan (plan_from base_url (length ts_files) (segment_lines lines))
                   completed m3u8_url ts_files dl st)
         (fun x => ret x.1.1) w.
Proof.
  revert ts_files dl st w.
  induction lines as [|line rest IH]; intros ts_files dl st w; [done|].
  cbn [resume_loop]. rewrite segment_lines_cons.
  destruct (is_ts line); [|apply IH].
  cbn [plan_from run_plan]. case_bool_decide.
  - rewrite IH, length_app. cbn [length]. by rewrite Nat.add_1_r.
  - unfold bind.
    destruct (fetch_segment _ _ _ _ _ _ w) as [w1 [x|e]] eqn:Hfetch; [|done].
    destruct (fetch_segment_trace _ _ _ _ _ _ _ _ _ Hfetch) as (_ & _ & _ & Hx).
    rewrite IH, (Hx x eq_refl), length_app. cbn [length].
    rewrite Nat.add_1_r. reflexivity.
Qed.

(** [download_ts_segments_with_resume] on a readable state file: the state
    is loaded, saved back with the segment count, and the plan is run. *)
Lemma download_ts_segments_with_resume_eq content base_url completed m3u8_url w :
  state_readable m3u8_url w ->
  let st0 := {| key_downloaded_segments :=
                  key_downloaded_segments (stored_state m3u8_url w);
                key_total_segments :=
                  length (segment_lines (manifest_lines content)) |} in
  let w0 := World (disk w)
                  (<[get_download_state_filename m3u8_url := Text (Encodes st0)]>
                     (store w))
                  (wire w) (http w) in
  download_ts_segments_with_resume content base_url completed m3u8_url w =
    bind (run_plan (segment_plan base_url (manifest_lines content))
                   completed m3u8_url []
                   (key_downloaded_segments (stored_state m3u8_url w)) st0)
         (fun x => ret x.1.1) w0.
Proof.
  intros Hread st0 w0.
  unfold download_ts_segments_with_resume.
  unfold bind at 1. rewrite load_download_state_readable by done.
  unfold bind at 1. rewrite save_download_state_eq.
  - rewrite resume_loop_run_plan. reflexivity.
  - unfold state_readable in Hread. intros Hl. by rewrite Hl in Hread.
Qed.

(** [download_ts_segments] returns the names of the plan. *)
Lemma download_loop_returns lines base_url ts_files w w' x :
  download_loop lines base_url ts_files w = (w', Returned x) ->
  x = ts_files ++ map snd (plan_from base_url (length ts_files) (segment_lines lines)).
Proof.
  revert ts_files w.
  induction lines as [|line rest IH]; intros ts_files w.
  - intros [= <- <-]. by rewrite app_nil_r.
  - cbn [download_loop]. rewrite segment_lines_cons.
    destruct (is_ts line); [|apply IH].
    unfold bind, requests_get, raise_for_status.
    destruct (http w (length (wire w)) (urljoin base_url line)) as [sc content|e];
      [|done].
    cbn [fst snd]. destruct ((400 <=? sc) && (sc <? 600))%N; [done|].
    unfold ret, write_wb. intros Hrun. apply IH in Hrun. rewrite Hrun.
    rewrite length_app. cbn [length plan_from map snd].
    rewrite Nat.add_1_r, <- app_assoc. reflexivity.
Qed.

Lemma pending_all_completed (plan : list (str * str)) (names : gset str) :
  Forall (fun p => p.2 ∈ names) plan ->
  pending names plan = [].
Proof.
  induction 1 as [|p plan Hp _ IH]; [done|].
  by rewrite pending_cons_skip.
Qed.

Lemma elem_of_add_new dl f g : g ∈ add_new dl f <-> g ∈ dl \/ g = f.
Proof.
  unfold add_new. case_bool_decide as Hf.
  - split; [auto|]. intros [?| ->]; done.
  - rewrite elem_of_app, list_elem_of_singleton. done.
Qed.

Lemma elem_of_add_all dl names g : g ∈ add_all dl names <-> g ∈ dl \/ g ∈ names.
Proof.
  unfold add_all. revert dl. induction names as [|f names IH]; intros dl; cbn [foldl].
  - split; [auto|]. intros [?|Hn]; [done|]. by apply not_elem_of_nil in Hn.
  - rewrite IH, elem_of_add_new, elem_of_cons. tauto.
Qed.

(** C3 (as amended).  [load_download_state] leaves the world as it is; it
    returns the persisted state when the record is readable and the default
    state when the record is absent; on a record that is corrupt or cannot
    be opened it raises to the caller. *)
Theorem load_download_state_outcomes (m3u8_url : str) (w : world) :
  (forall st,
      store w !! get_download_state_filename m3u8_url = Some (Text (Encodes st)) ->
      load_download_state m3u8_url w = (w, Returned st))
  /\ (store w !! get_download_state_filename m3u8_url = None ->
      load_download_state m3u8_url w = (w, Returned default_state))
  /\ (store w !! get_download_state_filename m3u8_url = Some (Text Garbage) ->
      load_download_state m3u8_url w = (w, Raised JSONDecodeError))
  /\ (store w !! get_download_state_filename m3u8_url = Some Locked ->
      load_download_state m3u8_url w = (w, Raised PermissionError)).
Proof.
  rewrite load_download_state_eq.
  split; [by intros st ->|]. split; [by intros ->|]. split; by intros ->.
Qed.

(** A pass of [download_ts_segments_with_resume], whatever its outcome. *)
Lemma download_ts_segments_with_resume_trace content base_url completed m3u8_url
    w w' r :
  let plan := segment_plan base_url (manifest_lines content) in
  download_ts_segments_with_resume content base_url completed m3u8_url w = (w', r) ->
  (exists k, wire w' = wire w ++ take k (map fst (pending completed plan)))
  /\ (forall g, g ∉ map snd (pending completed plan) -> disk w' !! g = disk w !! g)
  /\ (forall ts_files, r = Returned ts_files ->
        ts_files = map snd plan
        /\ wire w' = wire w ++ map fst (pending completed plan)).
Proof.
  intros plan Hrun.
  assert (state_readable m3u8_url w \/
          exists e, load_download_state m3u8_url w = (w, Raised e)) as [Hread|[e He]].
  { rewrite load_download_state_eq. unfold state_readable.
    destruct (store w !! get_download_state_filename m3u8_url) as [[|[st|]]|];
      eauto. }
  - rewrite download_ts_segments_with_resume_eq in Hrun by done.
    unfold bind in Hrun.
    match type of Hrun with
    | context [run_plan ?p ?c ?m ?t ?d ?s ?v] =>
        destruct (run_plan p c m t d s v) as [w3 rx] eqn:Hplan
    end.
    apply run_plan_trace in Hplan as (Hk & _ & Hd & Hx). cbn [wire disk] in *.
    destruct rx as [x|e]; unfold ret in Hrun; injection Hrun as <- <-.
    + split; [done|]. split; [done|]. intros ts [= <-].
      destruct (Hx x eq_refl) as [-> ->]. done.
    + split; [done|]. split; [done|]. intros ts [=].
  - unfold download_ts_segments_with_resume in Hrun. unfold bind at 1 in Hrun.
    rewrite He in Hrun. injection Hrun as <- <-.
    split; [exists 0; by rewrite app_nil_r|]. split; [done|]. intros ts [=].
Qed.

(** C2.  In every resume-aware pass the requests made are for segments
    whose file name is not in the completed set, in the order of the
    manifest and at most once each, and a pass that returns has made all of
    them and returns the file names of all segment lines, the [k]-th being
    the name of the [k]-th segment line, completed or not.  With a readable
    state file and every request accepted, the pass does return. *)
Theorem resume_skips_completed (m3u8_content base_url : str)
    (downloaded_segments : gset str) (m3u8_url : str) (w : world) :
  let plan := segment_plan base_url (manifest_lines m3u8_content) in
  (forall w' r,
      download_ts_segments_with_resume m3u8_content base_url
        downloaded_segments m3u8_url w = (w', r) ->
      (exists k, wire w' = wire w ++ take k (map fst (pending downloaded_segments plan)))
      /\ (forall ts_files, r = Returned ts_files ->
            ts_files = map snd plan
            /\ wire w' = wire w ++ map fst (pending downloaded_segments plan)))
  /\ (state_readable m3u8_url w ->
      replies_accepted w (map fst (pending downloaded_segments plan)) ->
      exists w',
        download_ts_segments_with_resume m3u8_content base_url
          downloaded_segments m3u8_url w = (w', Returned (map snd plan)))
  /\ (forall k line,
        segment_lines (manifest_lines m3u8_content) !! k = Some line ->
        map snd plan !! k = Some (segment_filename (urljoin base_url line) k)).
Proof.
  intros plan. split; [|split].
  - intros w' r Hrun.
    apply download_ts_segments_with_resume_trace in Hrun as (Hk & _ & Hx). done.
  - intros Hread Hok.
    rewrite download_ts_segments_with_resume_eq by done. fold plan.
    set (st0 := {| key_downloaded_segments := _; key_total_segments := _ |}).
    set (w0 := World _ _ _ _).
    destruct (run_plan_accepted plan downloaded_segments m3u8_url []
                (key_downloaded_segments (stored_state m3u8_url w)) st0 w0)
      as (w' & Hrun & _).
    + subst w0. cbn. by rewrite lookup_insert_eq.
    + done.
    + exact Hok.
    + exists w'. unfold bind. by rewrite Hrun.
  - intros k line Hk. subst plan. unfold segment_plan.
    rewrite list_lookup_fmap, plan_from_lookup, Hk. done.
Qed.

(** C4 (as amended).  When the path of the URL of the [k]-th segment line
    has no base name, the file name of that segment is [segment_<k>.ts], in
    every run of either fetcher that returns, whatever the completed set,
    the state file and the replies; and a run that raises has touched no
    file outside the names so assigned. *)
Theorem synthetic_name_is_ordinal (m3u8_content base_url : str) (k : nat) (line : str) :
  segment_lines (manifest_lines m3u8_content) !! k = Some line ->
  os_path_basename (urlparse_path (urljoin base_url line)) = [] ->
  let name := py "segment_" ++ str_of_nat k ++ py ".ts" in
  map snd (segment_plan base_url (manifest_lines m3u8_content)) !! k = Some name
  /\ (forall downloaded_segments m3u8_url w w' ts_files,
        download_ts_segments_with_resume m3u8_content base_url
          downloaded_segments m3u8_url w = (w', Returned ts_files) ->
        ts_files !! k = Some name)
  /\ (forall w w' ts_files,
        download_ts_segments m3u8_content base_url w = (w', Returned ts_files) ->
        ts_files !! k = Some name)
  /\ (forall downloaded_segments m3u8_url w w' r,
        download_ts_segments_with_resume m3u8_content base_url
          downloaded_segments m3u8_url w = (w', r) ->
        forall g, g ∉ map snd (segment_plan base_url (manifest_lines m3u8_content)) ->
                  disk w' !! g = disk w !! g).
Proof.
  intros Hk Hbase name.
  assert (map snd (segment_plan base_url (manifest_lines m3u8_content)) !! k
          = Some name) as Hname.
  { unfold segment_plan. rewrite list_lookup_fmap, plan_from_lookup, Hk.
    cbn. unfold segment_filename. by rewrite Hbase. }
  split; [done|]. split; [|split].
  - intros C url w w' ts_files Hrun.
    apply download_ts_segments_with_resume_trace in Hrun as (_ & _ & Hx).
    by rewrite (proj1 (Hx ts_files eq_refl)).
  - intros w w' ts_files Hrun. apply download_loop_returns in Hrun.
    by rewrite Hrun.
  - intros C url w w' r Hrun g Hg.
    apply download_ts_segments_with_resume_trace in Hrun as (_ & Hd & _).
    apply Hd. intros Hin. apply Hg.
    apply list_elem_of_fmap in Hin as (p & -> & Hp).
    apply list_elem_of_fmap. exists p. split; [done|].
    unfold pending in Hp. by apply list_elem_of_filter in Hp as [_ Hp].
Qed.

(** C8 (as amended).  When the GET for a segment that is not in the
    completed set gets a 4xx or 5xx status or fails in transport, all
    earlier requests having been accepted, the pass raises that error; it
    has made one request per pending segment up to the failing one and none
    after it; the state file holds the names that were there plus those of
    the segments fetched before the failure; and a new pass started from
    that state makes requests only for segments from the failing one on. *)
Theorem fetch_failure_propagates (m3u8_content base_url : str)
    (downloaded_segments : gset str) (m3u8_url : str) (w : world)
    (before : list (str * str)) (ts_url filename : str)
    (after : list (str * str)) (e : exn) :
  let dl0 := key_downloaded_segments (stored_state m3u8_url w) in
  let dl1 := add_all dl0 (map snd (pending downloaded_segments before)) in
  state_readable m3u8_url w ->
  segment_plan base_url (manifest_lines m3u8_content)
    = before ++ (ts_url, filename) :: after ->
  filename ∉ downloaded_segments ->
  replies_accepted w (map fst (pending downloaded_segments before)) ->
  refused (http w (length (wire w) + length (pending downloaded_segments before))
             ts_url) e ->
  exists w',
    download_ts_segments_with_resume m3u8_content base_url
      downloaded_segments m3u8_url w = (w', Raised e)
    /\ wire w' = wire w ++ map fst (pending downloaded_segments before) ++ [ts_url]
    /\ store w' =
         <[get_download_state_filename m3u8_url :=
             Text (Encodes {| key_downloaded_segments := dl1;
                              key_total_segments :=
                                length (segment_lines (manifest_lines m3u8_content)) |})]>
           (store w)
    /\ (downloaded_segments = list_to_set dl0 ->
        forall w'' r,
          download_ts_segments_with_resume m3u8_content base_url
            (list_to_set dl1) m3u8_url w' = (w'', r) ->
          exists k,
            wire w'' =
              wire w' ++ take k (map fst (pending (list_to_set dl1)
                                            ((ts_url, filename) :: after)))).
Proof.
  intros dl0 dl1 Hread Hplan Hf Hok Href.
  rewrite download_ts_segments_with_resume_eq by done. rewrite Hplan.
  set (st0 := {| key_downloaded_segments := _; key_total_segments := _ |}).
  set (w0 := World _ _ _ _).
  destruct (run_plan_accepted before downloaded_segments m3u8_url [] dl0 st0 w0)
    as (w1 & Hrun & Hw & Hs & Hh & _).
  { subst w0. cbn. by rewrite lookup_insert_eq. }
  { done. }
  { exact Hok. }
  cbv zeta in Hrun, Hs. fold dl1 in Hrun, Hs. cbn [key_total_segments st0] in Hrun, Hs.
  set (st1 := {| key_downloaded_segments := dl1; key_total_segments := _ |}) in *.
  assert (refused (http w1 (length (wire w1)) ts_url) e) as Href1.
  { rewrite Hh, Hw. subst w0. cbn [wire http]. by rewrite length_app, length_map. }
  exists (World (disk w1) (store w1) (wire w1 ++ [ts_url]) (http w1)).
  assert (store w1 = <[get_download_state_filename m3u8_url := Text (Encodes st1)]>
                       (store w)) as Hs1.
  { rewrite Hs. subst w0. cbn [store]. by rewrite insert_insert_eq. }
  split; [|split; [|split]].
  - unfold bind at 1. rewrite run_plan_app. unfold bind at 1. fold dl0. rewrite Hrun.
    cbn [run_plan fst snd]. rewrite bool_decide_false by done.
    unfold bind. by rewrite (fetch_segment_refused _ _ _ _ _ _ _ e Href1).
  - cbn [wire]. rewrite Hw. subst w0. cbn [wire]. by rewrite <- app_assoc.
  - done.
  - intros HC w'' r Hrerun. cbn [wire].
    set (w' := World _ _ _ _) in Hrerun.
    assert (store w' !! get_download_state_filename m3u8_url
            = Some (Text (Encodes st1))) as Hst'.
    { subst w'. cbn [store]. rewrite Hs1. by rewrite lookup_insert_eq. }
    rewrite download_ts_segments_with_resume_eq in Hrerun
      by (unfold state_readable; by rewrite Hst').
    rewrite Hplan in Hrerun. unfold bind in Hrerun.
    match type of Hrerun with
    | context [run_plan ?p ?c ?m ?t ?d ?s ?v] =>
        destruct (run_plan p c m t d s v) as [w3 rx] eqn:Hrun3
    end.
    apply run_plan_trace in Hrun3 as ([k Hk] & _).
    assert (w'' = w3) as -> by (destruct rx; unfold ret in Hrerun; congruence).
    exists k. rewrite Hk. subst w'. cbn [wire]. f_equal. f_equal. f_equal.
    unfold pending at 1. rewrite filter_app. fold (pending (list_to_set dl1) before).
    rewrite pending_all_completed; [done|].
    apply Forall_forall. intros p Hp. rewrite elem_of_list_to_set.
    subst dl1. apply elem_of_add_all.
    destruct (decide (p.2 ∈ downloaded_segments)) as [Hin|Hout].
    + left. rewrite HC in Hin. by apply elem_of_list_to_set in Hin.
    + right. apply list_elem_of_fmap. exists p. split; [done|].
      unfold pending. by apply list_elem_of_filter.
Qed.

End FetcherProperties.

(** ** Stream assembly *)

Lemma length_concat_sum {A} (ls : list (list A)) :
  length (concat ls) = sum_list (map length ls).
Proof.
  induction ls as [|l ls IH]; [done|].
  cbn [concat map sum_list sum_list_with]. rewrite length_app, IH. done.
Qed.

Section AssemblyProperties.
Context `{Buffering}.

Lemma read_input_other output_filename chunks ts_file :
  ts_file ≠ output_filename ->
  read_input output_filename chunks ts_file = read_rb ts_file.
Proof. intros Hne. unfold read_input. by rewrite bool_decide_eq_false_2. Qed.

Lemma read_input_destination output_filename chunks w :
  read_input output_filename chunks output_filename w
  = (w, Returned (take (flushed chunks) (concat chunks))).
Proof. unfold read_input. by rewrite bool_decide_eq_true_2. Qed.

Lemma concatenate_loop_appends ts_files output_filename chunks w written :
  output_filename ∉ ts_files ->
  (forall f, f ∈ ts_files -> is_Some (disk w !! f)) ->
  disk w !! output_filename = Some written ->
  concatenate_loop ts_files output_filename chunks w =
    (World (<[output_filename :=
                written ++ concat (map (fun f => default [] (disk w !! f)) ts_files)]>
              (disk w))
           (store w) (wire w) (http w),
     Returned tt).
Proof.
  revert chunks w written.
  induction ts_files as [|f rest IH]; intros chunks w written Hout Hall Hw.
  - cbn. rewrite app_nil_r, insert_id by done. by destruct w.
  - apply not_elem_of_cons in Hout as [Hne Hout].
    destruct (Hall f) as [data Hf]; [left|].
    cbn [concatenate_loop]. rewrite read_input_other by done.
    unfold bind, read_rb, append_wb. rewrite Hf, Hw.
    cbn [from_option id].
    assert (map (fun g => default [] (<[output_filename := written ++ data]> (disk w) !! g)) rest
            = map (fun g => default [] (disk w !! g)) rest) as Hmap.
    { apply map_ext_in. intros g Hg. apply list_elem_of_In in Hg.
      rewrite lookup_insert_ne; [done|]. by intros ->. }
    rewrite (IH _ _ (written ++ data)); cbn [disk store wire http].
    + rewrite insert_insert_eq, Hmap. cbn [map concat]. rewrite Hf.
      cbn [from_option id]. by rewrite <- app_assoc.
    + done.
    + intros g Hg. rewrite lookup_insert_ne; [|by intros ->].
      apply Hall. by right.
    + apply lookup_insert_eq.
Qed.

(** C6, as amended.  When every input file exists and the destination is
    not one of them, [concatenate_videos] returns and leaves in the destination the
    contents of the input files, one after the other in list order, byte
    for byte; no other file changes; the length of the result is the sum of
    the lengths, so an empty input adds nothing. *)
Theorem concatenate_videos_bytes (ts_files : list str) (output_filename : str)
    (w : world) :
  output_filename ∉ ts_files ->
  (forall f, f ∈ ts_files -> is_Some (disk w !! f)) ->
  let data := concat (map (fun f => default [] (disk w !! f)) ts_files) in
  exists w',
    concatenate_videos ts_files output_filename w = (w', Returned tt)
    /\ disk w' !! output_filename = Some data
    /\ (forall g, g ≠ output_filename -> disk w' !! g = disk w !! g)
    /\ length data
       = sum_list (map (fun f => length (default [] (disk w !! f))) ts_files).
Proof.
  intros Hout Hall data.
  unfold concatenate_videos, bind, write_wb.
  rewrite (concatenate_loop_appends _ _ _ _ []); cbn [disk store wire http].
  - eexists. split; [reflexivity|]. cbn [disk].
    rewrite insert_insert_eq.
    assert (map (fun f => default [] (<[output_filename := []]> (disk w) !! f)) ts_files
            = map (fun f => default [] (disk w !! f)) ts_files) as ->.
    { apply map_ext_in. intros g Hg. apply list_elem_of_In in Hg.
      rewrite lookup_insert_ne; [done|]. by intros ->. }
    split; [by rewrite lookup_insert_eq|]. split.
    + intros g Hg. by rewrite lookup_insert_ne.
    + subst data. rewrite length_concat_sum, map_map. done.
  - done.
  - intros g Hg. rewrite lookup_insert_ne; [by apply Hall|]. by intros ->.
  - apply lookup_insert_eq.
Qed.

End AssemblyProperties.

Lemma concatenate_videos_sample :
  exists w',
    concatenate_videos (H := sample_buffering) [py "a.ts"; py "b.ts"; py "c.ts"]
      (py "temp_concatenated.ts") assembly_world = (w', Returned tt)
    /\ disk w' !! py "temp_concatenated.ts" = Some (repeat x47 10 ++ repeat x00 7)
    /\ length (repeat x47 10 ++ repeat x00 7) = 17.
Proof.
  destruct (concatenate_videos_bytes (H := sample_buffering)
              [py "a.ts"; py "b.ts"; py "c.ts"]
              (py "temp_concatenated.ts") assembly_world)
    as (w' & Hrun & Hdata & _ & _).
  - by_decide.
  - intros f Hf.
    repeat (apply elem_of_cons in Hf as [->|Hf]; [vm_compute; eauto|]).
    by apply not_elem_of_nil in Hf.
  - exists w'. split; [exact Hrun|]. split; [|reflexivity].
    rewrite Hdata. vm_compute. reflexivity.
Defined.

(** C6, as worded, fails when the destination is one of the inputs: line
    221 empties it before line 223 reads it.  With [a.ts] (10 bytes) and
    [c.ts] (7 bytes) assembled into [a.ts], the destination ends with the 7
    bytes of [c.ts]: neither the 17 bytes the two inputs held, nor the 14
    bytes they hold afterwards.  The destination is read before anything
    is written to it, so the buffering has no part in this. *)
Lemma concatenate_videos_destination_among_inputs :
  let ts_files := [py "a.ts"; py "c.ts"] in
  let contents (w : world) := concat (map (fun f => default [] (disk w !! f)) ts_files) in
  exists w',
    concatenate_videos (H := sample_buffering) ts_files (py "a.ts") assembly_world
    = (w', Returned tt)
    /\ disk assembly_world !! py "a.ts" = Some (repeat x47 10)
    /\ disk assembly_world !! py "c.ts" = Some (repeat x00 7)
    /\ disk w' !! py "a.ts" = Some (repeat x00 7)
    /\ length (contents assembly_world) = 17
    /\ length (contents w') = 14
    /\ disk w' !! py "a.ts" ≠ Some (contents assembly_world)
    /\ disk w' !! py "a.ts" ≠ Some (contents w').
Proof.
  eexists. split; [vm_compute; reflexivity|].
  repeat split; try (vm_compute; reflexivity); vm_compute; discriminate.
Qed.

(** ** The samples *)

Lemma load_download_state_samples :
  load_download_state (H := sample_library) sample_m3u8_url resumed_world
    = (resumed_world,
       Returned {| key_downloaded_segments := [py "seg_2.ts"];
                   key_total_segments := 4 |})
  /\ load_download_state (H := sample_library) sample_m3u8_url fresh_world
     = (fresh_world, Returned default_state).
Proof.
  split.
  - apply (proj1 (load_download_state_outcomes (H := sample_library)
                    sample_m3u8_url resumed_world)).
    vm_compute. reflexivity.
  - apply (proj1 (proj2 (load_download_state_outcomes (H := sample_library)
                           sample_m3u8_url fresh_world))).
    vm_compute. reflexivity.
Defined.

(** The claim as first worded fails: a state file that is not JSON makes
    [load_download_state] raise instead of returning the default state. *)
Lemma load_download_state_corrupt :
  store corrupt_world !! get_download_state_filename (H := sample_library) sample_m3u8_url
    = Some (Text Garbage)
  /\ load_download_state (H := sample_library) sample_m3u8_url corrupt_world
     = (corrupt_world, Raised JSONDecodeError)
  /\ snd (load_download_state (H := sample_library) sample_m3u8_url corrupt_world)
     ≠ Returned default_state.
Proof.
  split; [vm_compute; reflexivity|].
  rewrite load_download_state_eq.
  replace (store corrupt_world !! get_download_state_filename (H := sample_library) sample_m3u8_url)
    with (Some (Text Garbage)) by (vm_compute; reflexivity).
  split; [reflexivity | discriminate].
Qed.

Lemma sample_replies_accepted (d : gmap str bytes) (s : gmap str state_file)
    (urls : list str) :
  replies_accepted (World d s [] (fun _ _ => Response 200 packet)) urls.
Proof. intros i u _. cbn [http accepted]. lia. Qed.

Lemma resume_skips_completed_sample :
  exists w',
    download_ts_segments_with_resume (H := sample_library) sample_filtered
      sample_base_url {[ py "seg_2.ts" ]} sample_m3u8_url resumed_world
    = (w', Returned [py "seg_1.ts"; py "seg_2.ts"; py "segment_2.ts"; py "seg_4.ts"])
    /\ wire w' = [py "http://cdn.example/v/seg_1.ts";
                  py "http://cdn.example/v/part/?id=3.ts";
                  py "http://cdn.example/v/seg_4.ts"].
Proof.
  destruct (resume_skips_completed (H := sample_library) sample_filtered
              sample_base_url {[ py "seg_2.ts" ]} sample_m3u8_url resumed_world)
    as (Hany & Hreturns & _).
  destruct Hreturns as [w' Hrun].
  - vm_compute. exact I.
  - apply sample_replies_accepted.
  - exists w'. split; [exact Hrun|].
    destruct (Hany w' _ Hrun) as [_ Hw].
    destruct (Hw _ eq_refl) as [_ ->]. vm_compute. reflexivity.
Defined.

Lemma synthetic_name_sample :
  map snd (segment_plan (H := sample_library) sample_base_url
             (manifest_lines sample_filtered)) !! 2 = Some (py "segment_2.ts")
  /\ (forall downloaded_segments w w' ts_files,
        download_ts_segments_with_resume (H := sample_library) sample_filtered
          sample_base_url downloaded_segments sample_m3u8_url w
        = (w', Returned ts_files) ->
        ts_files !! 2 = Some (py "segment_2.ts")).
Proof.
  destruct (synthetic_name_is_ordinal (H := sample_library) sample_filtered
              sample_base_url 2 (py "part/?id=3.ts"))
    as (Hplan & Hresume & _).
  - vm_compute. reflexivity.
  - vm_compute. reflexivity.
  - split; [exact Hplan|].
    intros C w w' ts_files Hrun. exact (Hresume C sample_m3u8_url w w' ts_files Hrun).
Defined.

(** The claim as first worded fails: the name made up for the third segment
    of the sample is [segment_2.ts], not [segment_2]. *)
Lemma synthetic_name_has_suffix :
  @os_path_basename sample_library
    (@urlparse_path sample_library
       (@urljoin sample_library sample_base_url (py "part/?id=3.ts"))) = []
  /\ snd (download_ts_segments_with_resume (H := sample_library) sample_filtered
            sample_base_url ∅ sample_m3u8_url fresh_world)
     = Returned [py "seg_1.ts"; py "seg_2.ts"; py "segment_2.ts"; py "seg_4.ts"]
  /\ snd (download_ts_segments (H := sample_library) sample_filtered
            sample_base_url fresh_world)
     = Returned [py "seg_1.ts"; py "seg_2.ts"; py "segment_2.ts"; py "seg_4.ts"]
  /\ py "segment_2.ts" ≠ py "segment_" ++ str_of_nat 2.
Proof.
  split; [vm_compute; reflexivity|].
  split; [vm_compute; reflexivity|].
  split; [vm_compute; reflexivity|].
  vm_compute. discriminate.
Qed.

Lemma fetch_failure_sample :
  exists w',
    download_ts_segments_with_resume (H := sample_library) sample_filtered
      sample_base_url ∅ sample_m3u8_url failing_world
    = (w', Raised (HTTPError 503))
    /\ wire w' = [py "http://cdn.example/v/seg_1.ts";
                  py "http://cdn.example/v/seg_2.ts";
                  py "http://cdn.example/v/part/?id=3.ts"]
    /\ store w' !! sample_state_file
       = Some (Text (Encodes {| key_downloaded_segments :=
                                  [py "seg_1.ts"; py "seg_2.ts"];
                                key_total_segments := 4 |}))
    /\ (forall w'' r,
          download_ts_segments_with_resume (H := sample_library) sample_filtered
            sample_base_url {[ py "seg_1.ts"; py "seg_2.ts" ]} sample_m3u8_url w'
          = (w'', r) ->
          exists k,
            wire w'' = wire w' ++ take k [py "http://cdn.example/v/part/?id=3.ts";
                                          py "http://cdn.example/v/seg_4.ts"]).
Proof.
  destruct (fetch_failure_propagates (H := sample_library) sample_filtered
              sample_base_url ∅ sample_m3u8_url failing_world
              (take 2 sample_plan)
              (py "http://cdn.example/v/part/?id=3.ts") (py "segment_2.ts")
              (drop 3 sample_plan) (HTTPError 503))
    as (w' & Hrun & Hw & Hs & Hre).
  - vm_compute. exact I.
  - vm_compute. reflexivity.
  - apply not_elem_of_empty.
  - intros i u Hi. destruct i as [|[|i]]; [cbn [failing_world http wire length Nat.add Nat.eqb accepted]; lia..|].
    vm_compute in Hi. discriminate.
  - assert (length (wire failing_world)
            + length (pending ∅ (take 2 sample_plan)) = 2)
      as -> by (vm_compute; reflexivity).
    cbn [failing_world http Nat.eqb refused]. split; [lia | reflexivity].
  - exists w'. split; [exact Hrun|]. split; [rewrite Hw; vm_compute; reflexivity|].
    split; [rewrite Hs; vm_compute; reflexivity|].
    intros w'' r Hrerun.
    destruct (Hre eq_refl w'' r) as [k Hk].
    + rewrite <- Hrerun. reflexivity.
    + exists k. rewrite Hk. reflexivity.
Defined.

(** The claim as first worded fails: a reply with status 304, which is not
    2xx, does not make the pass raise; the empty body is stored and the
    segment is recorded as downloaded. *)
Lemma fetch_accepts_not_modified :
  http not_modified_world 0 (py "http://cdn.example/v/seg_1.ts") = Response 304 []
  /\ snd (download_ts_segments_with_resume (H := sample_library) sample_filtered
            sample_base_url ∅ sample_m3u8_url not_modified_world)
     = Returned [py "seg_1.ts"; py "seg_2.ts"; py "segment_2.ts"; py "seg_4.ts"]
  /\ disk (fst (download_ts_segments_with_resume (H := sample_library) sample_filtered
                  sample_base_url ∅ sample_m3u8_url not_modified_world))
       !! py "seg_1.ts" = Some []
  /\ store (fst (download_ts_segments_with_resume (H := sample_library) sample_filtered
                   sample_base_url ∅ sample_m3u8_url not_modified_world))
       !! sample_state_file
     = Some (Text (Encodes {| key_downloaded_segments :=
                                [py "seg_1.ts"; py "seg_2.ts"; py "segment_2.ts";
                                 py "seg_4.ts"];
                              key_total_segments := 4 |})).
Proof.
  split; [reflexivity|].
  split; [vm_compute; reflexivity|].
  split; vm_compute; reflexivity.
Qed.

(** ** More on the ad filter *)

Lemma marker_count_cons line rest :
  marker_count (line :: rest) =
    (if is_discontinuity line then 1 else 0) + marker_count rest.
Proof.
  unfold marker_count. rewrite filter_cons.
  destruct (is_discontinuity line); [by rewrite decide_True | by rewrite decide_False].
Qed.

Lemma marker_count_app l k :
  marker_count (l ++ k) = marker_count l + marker_count k.
Proof. unfold marker_count. by rewrite filter_app, length_app. Qed.

Lemma marker_count_gap g :
  Forall (fun l => is_discontinuity l = false) g -> marker_count g = 0.
Proof.
  induction 1 as [|l g Hl _ IH]; [done|]. by rewrite marker_count_cons, Hl, IH.
Qed.

Lemma skip_of_step c :
  skip_of (c + 1) =
    if c + 1 =? 1 then false else if (c + 1) mod 2 =? 0 then true else false.
Proof.
  unfold skip_of.
  destruct (Nat.eqb_spec (c + 1) 1) as [->|H1]; [done|].
  destruct (Nat.leb_spec 2 (c + 1)); [|lia].
  by destruct ((c + 1) mod 2 =? 0).
Qed.

(** On a marker the filter moves from the state of [c] markers to the state
    of [c + 1] markers, and keeps the marker unless that state skips. *)
Lemma filter_loop_marker_state line rest c s :
  is_discontinuity line = true ->
  filter_loop (line :: rest) c s [] =
    (if skip_of (c + 1) then [] else [line])
      ++ filter_loop rest (c + 1) (skip_of (c + 1)) [].
Proof.
  intros Hd. rewrite filter_loop_marker by done. rewrite skip_of_step.
  destruct (c + 1 =? 1); [done|]. by destruct ((c + 1) mod 2 =? 0).
Qed.

(** The filter on two pieces of a manifest: the second piece is filtered
    from the state the first one leaves. *)
Lemma filter_loop_app l1 l2 c :
  filter_loop (l1 ++ l2) c (skip_of c) [] =
    filter_loop l1 c (skip_of c) []
      ++ filter_loop l2 (c + marker_count l1) (skip_of (c + marker_count l1)) [].
Proof.
  revert c. induction l1 as [|line rest IH]; intros c.
  - cbn [app filter_loop]. unfold marker_count. cbn. by rewrite Nat.add_0_r.
  - cbn [app]. rewrite marker_count_cons.
    destruct (is_discontinuity line) eqn:Hd.
    + rewrite !filter_loop_marker_state by done. rewrite IH, <- app_assoc.
      by rewrite Nat.add_assoc.
    + rewrite !filter_loop_other by done. rewrite IH.
      cbn [Nat.add]. by destruct (skip_of c).
Qed.

Lemma skip_of_odd c : Nat.Odd c -> skip_of c = false.
Proof.
  intros [m ->]. unfold skip_of.
  replace ((2 * m + 1) mod 2) with 1; [by rewrite andb_false_r|].
  rewrite Nat.add_comm, Nat.mul_comm, Nat.Div0.mod_add. done.
Qed.

Lemma skip_of_even c : Nat.Even c -> skip_of (c + 2) = true.
Proof.
  intros [m ->]. unfold skip_of.
  replace (2 * m + 2) with ((m + 1) * 2) by lia.
  rewrite Nat.Div0.mod_mul. destruct (Nat.leb_spec 2 ((m + 1) * 2)); [done|lia].
Qed.

Lemma filter_loop_top_app l1 l2 :
  filter_loop (l1 ++ l2) 0 false [] =
    filter_loop l1 0 false []
      ++ filter_loop l2 (marker_count l1) (skip_of (marker_count l1)) [].
Proof. apply (filter_loop_app l1 l2 0). Qed.

Lemma kept_from_marker line rest c :
  is_discontinuity line = true ->
  kept_from c (line :: rest) =
    (if skip_of (c + 1) then [] else [line]) ++ kept_from (c + 1) rest.
Proof. apply filter_loop_marker_state. Qed.

Lemma kept_from_other line rest c :
  is_discontinuity line = false ->
  kept_from c (line :: rest) =
    if skip_of c then kept_from c rest else line :: kept_from c rest.
Proof. apply filter_loop_other. Qed.

Lemma kept_from_gap g rest c :
  Forall (fun l => is_discontinuity l = false) g ->
  kept_from c (g ++ rest) = (if skip_of c then [] else g) ++ kept_from c rest.
Proof. apply filter_loop_gap. Qed.

Lemma kept_from_app l1 l2 c :
  kept_from c (l1 ++ l2) = kept_from c l1 ++ kept_from (c + marker_count l1) l2.
Proof. apply filter_loop_app. Qed.

Lemma filtered_lines_kept content :
  split NL (filter_ad_segments content) = kept_from 0 (manifest_lines content).
Proof. apply filter_ad_segments_lines. Qed.

Lemma kept_from_marker_count lines c :
  marker_count (kept_from c lines) + (c + 1) / 2 = (c + marker_count lines + 1) / 2.
Proof.
  revert c. induction lines as [|line rest IH]; intros c.
  - unfold kept_from, marker_count. cbn. by rewrite Nat.add_0_r.
  - rewrite (marker_count_cons line rest).
    destruct (is_discontinuity line) eqn:Hd.
    + rewrite kept_from_marker by done. rewrite marker_count_app.
      specialize (IH (c + 1)).
      replace (c + (1 + marker_count rest) + 1) with (c + 1 + marker_count rest + 1) by lia.
      rewrite <- IH.
      assert (marker_count (if skip_of (c + 1) then [] else [line]) + (c + 1) / 2
              = (c + 1 + 1) / 2) as Hstep; [|lia].
      pose proof (Nat.div_mod_eq (c + 1) 2) as E1.
      pose proof (Nat.div_mod_eq (c + 1 + 1) 2) as E2.
      pose proof (Nat.mod_upper_bound (c + 1) 2) as B1.
      pose proof (Nat.mod_upper_bound (c + 1 + 1) 2) as B2.
      unfold skip_of.
      destruct (Nat.leb_spec 2 (c + 1)), (Nat.eqb_spec ((c + 1) mod 2) 0);
        cbn [andb]; rewrite ?marker_count_cons, ?Hd;
        change (marker_count []) with 0; lia.
    + rewrite kept_from_other by done. cbn [Nat.add].
      destruct (skip_of c); rewrite ?marker_count_cons, ?Hd; apply IH.
Qed.

Lemma odd_numbered_cons {A} (x : A) l :
  odd_numbered (x :: l) = x :: odd_numbered (tail l).
Proof. by destruct l. Qed.

Lemma marker_lines_cons line rest :
  marker_lines (line :: rest) =
    (if is_discontinuity line then [line] else []) ++ marker_lines rest.
Proof.
  unfold marker_lines. rewrite filter_cons.
  destruct (is_discontinuity line); [by rewrite decide_True | by rewrite decide_False].
Qed.

Lemma skip_of_next c : skip_of (c + 1) = negb (Nat.even c).
Proof.
  destruct (Nat.even c) eqn:E; cbn [negb].
  - apply Nat.even_spec in E. apply skip_of_odd.
    destruct E as [m ->]. by exists m.
  - assert (Nat.Odd c) as [m ->].
    { apply Nat.odd_spec. by rewrite <- Nat.negb_even, E. }
    replace (2 * m + 1 + 1) with (2 * m + 2) by lia.
    apply skip_of_even. by exists m.
Qed.

Lemma even_next c : Nat.even (c + 1) = negb (Nat.even c).
Proof. by rewrite Nat.add_1_r, Nat.even_succ, <- Nat.negb_even. Qed.

(** The markers the filter keeps when [c] markers came before: every other
    one, from the first of the lines when [c] is even and from the second
    when it is odd. *)
Lemma kept_from_marker_lines lines c :
  marker_lines (kept_from c lines) =
    odd_numbered (if Nat.even c then marker_lines lines
                  else tail (marker_lines lines)).
Proof.
  revert c. induction lines as [|line rest IH]; intros c.
  - unfold kept_from. cbn. by destruct (Nat.even c).
  - rewrite (marker_lines_cons line rest).
    destruct (is_discontinuity line) eqn:Hd.
    + rewrite kept_from_marker by done. rewrite skip_of_next.
      unfold marker_lines at 1. rewrite filter_app. fold (marker_lines (kept_from (c + 1) rest)).
      rewrite IH, even_next. cbn [app].
      destruct (Nat.even c); cbn [negb tail].
      * rewrite odd_numbered_cons. rewrite filter_cons, decide_True by done. done.
      * done.
    + rewrite kept_from_other by done. cbn [app].
      destruct (skip_of c); [apply IH|].
      rewrite marker_lines_cons, Hd. apply IH.
Qed.

(** X1.  The filter keeps the odd-numbered discontinuity markers and drops
    the even-numbered ones.  The markers of the output are the first,
    third, fifth, ... marker of the trimmed input, in order; a marker is in
    the output, in place, when an even number of markers comes before it,
    and is left out when an odd number does; so of [n] markers,
    [(n + 1) / 2] are in the output. *)
Theorem filter_ad_segments_keeps_odd_markers (content : str) :
  marker_lines (split NL (filter_ad_segments content))
  = odd_numbered (marker_lines (manifest_lines content))
  /\ (forall pre d post,
        manifest_lines content = pre ++ d :: post ->
        is_discontinuity d = true ->
        split NL (filter_ad_segments content)
        = kept_from 0 pre
            ++ (if Nat.even (marker_count pre) then [d] else [])
            ++ kept_from (marker_count pre + 1) post)
  /\ marker_count (split NL (filter_ad_segments content))
     = (marker_count (manifest_lines content) + 1) / 2.
Proof.
  split; [|split].
  - rewrite filtered_lines_kept. apply kept_from_marker_lines.
  - intros pre d post Hlines Hd.
    rewrite filtered_lines_kept, Hlines, kept_from_app. cbn [Nat.add]. f_equal.
    rewrite kept_from_marker, skip_of_next by done.
    by destruct (Nat.even (marker_count pre)).
  - rewrite filtered_lines_kept.
    pose proof (kept_from_marker_count (manifest_lines content) 0) as Hc.
    change ((0 + 1) / 2) with 0 in Hc. rewrite Nat.add_0_r in Hc. exact Hc.
Qed.

Lemma filter_ad_segments_keeps_odd_markers_sample :
  split NL (filter_ad_segments scenario_manifest)
  = kept_from 0 [py "#EXTM3U"; marker_line; py "s1.ts"; py "s2.ts"]
      ++ []
      ++ kept_from 2 [py "s3.ts"; py "s4.ts"; marker_line; py "s5.ts"; py "s6.ts";
                      marker_line; py "s7.ts"; py "s8.ts";
                      marker_line; py "s9.ts"; marker_line; marker_line;
                      py "s10.ts"; py "#EXT-X-ENDLIST"].
Proof.
  apply (proj1 (proj2 (filter_ad_segments_keeps_odd_markers scenario_manifest))
           [py "#EXTM3U"; marker_line; py "s1.ts"; py "s2.ts"] marker_line).
  - vm_compute. reflexivity.
  - vm_compute. reflexivity.
Defined.

(** X2.  An ad span is removed: when an odd number of markers comes before
    marker [d], then [d], the marker-free lines [gap] after it, and nothing
    else up to the next marker [d'] are dropped; [d'] is kept, and the lines
    before [d] and after [d'] are filtered as they would be on their own
    from those marker counts. *)
Theorem filter_ad_segments_drops_ad_span (content : str)
    (pre : list str) (d : str) (gap : list str) (d' : str) (post : list str) :
  manifest_lines content = pre ++ d :: gap ++ d' :: post ->
  Nat.Odd (marker_count pre) ->
  is_discontinuity d = true ->
  Forall (fun l => is_discontinuity l = false) gap ->
  is_discontinuity d' = true ->
  split NL (filter_ad_segments content)
  = kept_from 0 pre ++ d' :: kept_from (marker_count pre + 2) post.
Proof.
  intros Hlines Hodd Hd Hgap Hd'.
  rewrite filtered_lines_kept, Hlines, kept_from_app. cbn [Nat.add]. f_equal.
  assert (skip_of (marker_count pre + 1) = true) as H1.
  { destruct Hodd as [m ->]. replace (2 * m + 1 + 1) with (2 * m + 2) by lia.
    apply skip_of_even. by exists m. }
  assert (skip_of (marker_count pre + 1 + 1) = false) as H2.
  { apply skip_of_odd. destruct Hodd as [m ->]. exists (m + 1). lia. }
  rewrite kept_from_marker, H1 by done. cbn [app].
  rewrite kept_from_gap, H1 by done. cbn [app].
  rewrite kept_from_marker, H2 by done. cbn [app].
  by replace (marker_count pre + 1 + 1) with (marker_count pre + 2) by lia.
Qed.

Lemma filter_ad_segments_drops_ad_span_sample :
  split NL (filter_ad_segments scenario_manifest)
  = kept_from 0 [py "#EXTM3U"; marker_line; py "s1.ts"; py "s2.ts"]
      ++ marker_line
      :: kept_from 3 [py "s5.ts"; py "s6.ts"; marker_line; py "s7.ts"; py "s8.ts";
                      marker_line; py "s9.ts"; marker_line; marker_line;
                      py "s10.ts"; py "#EXT-X-ENDLIST"].
Proof.
  apply (filter_ad_segments_drops_ad_span scenario_manifest
           [py "#EXTM3U"; marker_line; py "s1.ts"; py "s2.ts"] marker_line
           [py "s3.ts"; py "s4.ts"] marker_line).
  - vm_compute. reflexivity.
  - exists 0. vm_compute. reflexivity.
  - vm_compute. reflexivity.
  - repeat constructor.
  - vm_compute. reflexivity.
Defined.

(** X3.  An ad span that is never closed runs to the end of the manifest:
    when an odd number of markers comes before marker [d] and no marker
    follows it, [d] and every line after it are dropped, whatever they
    are. *)
Theorem filter_ad_segments_unclosed_span (content : str)
    (pre : list str) (d : str) (rest : list str) :
  manifest_lines content = pre ++ d :: rest ->
  Nat.Odd (marker_count pre) ->
  is_discontinuity d = true ->
  Forall (fun l => is_discontinuity l = false) rest ->
  split NL (filter_ad_segments content) = kept_from 0 pre.
Proof.
  intros Hlines Hodd Hd Hrest.
  rewrite filtered_lines_kept, Hlines, kept_from_app. cbn [Nat.add].
  assert (skip_of (marker_count pre + 1) = true) as H1.
  { destruct Hodd as [m ->]. replace (2 * m + 1 + 1) with (2 * m + 2) by lia.
    apply skip_of_even. by exists m. }
  rewrite kept_from_marker, H1 by done. cbn [app].
  rewrite <- (app_nil_r rest). rewrite kept_from_gap, H1 by done.
  unfold kept_from. cbn [filter_loop app]. by rewrite app_nil_r.
Qed.

Lemma filter_ad_segments_unclosed_span_sample :
  split NL (filter_ad_segments unclosed_manifest)
  = kept_from 0 [py "#EXTM3U"; marker_line; py "a.ts"].
Proof.
  apply (filter_ad_segments_unclosed_span unclosed_manifest
           [py "#EXTM3U"; marker_line; py "a.ts"] marker_line
           [py "b.ts"; py "#EXT-X-ENDLIST"]).
  - vm_compute. reflexivity.
  - exists 0. vm_compute. reflexivity.
  - vm_compute. reflexivity.
  - repeat constructor.
Defined.

(** X4.  Content is kept: the lines before the first marker are all in the
    output, in place; and when an even number of markers comes before
    marker [d], then [d] and the marker-free lines [gap] after it are all
    in the output, in place. *)
Theorem filter_ad_segments_keeps_content (content : str) :
  (forall head rest,
      manifest_lines content = head ++ rest ->
      Forall (fun l => is_discontinuity l = false) head ->
      split NL (filter_ad_segments content) = head ++ kept_from 0 rest)
  /\ (forall pre d gap post,
        manifest_lines content = pre ++ d :: gap ++ post ->
        Nat.Even (marker_count pre) ->
        is_discontinuity d = true ->
        Forall (fun l => is_discontinuity l = false) gap ->
        split NL (filter_ad_segments content)
        = kept_from 0 pre ++ d :: gap ++ kept_from (marker_count pre + 1) post).
Proof.
  split.
  - intros head rest Hlines Hhead.
    rewrite filtered_lines_kept, Hlines. by rewrite kept_from_gap.
  - intros pre d gap post Hlines Heven Hd Hgap.
    rewrite filtered_lines_kept, Hlines, kept_from_app. cbn [Nat.add]. f_equal.
    assert (skip_of (marker_count pre + 1) = false) as H1.
    { apply skip_of_odd. destruct Heven as [m ->]. by exists m. }
    rewrite kept_from_marker, H1 by done. cbn [app]. f_equal.
    by rewrite kept_from_gap, H1.
Qed.

Lemma filter_ad_segments_keeps_content_sample :
  split NL (filter_ad_segments scenario_manifest)
  = kept_from 0 [py "#EXTM3U"; marker_line; py "s1.ts"; py "s2.ts";
                 marker_line; py "s3.ts"; py "s4.ts"]
      ++ marker_line :: [py "s5.ts"; py "s6.ts"]
      ++ kept_from 3 [marker_line; py "s7.ts"; py "s8.ts";
                      marker_line; py "s9.ts"; marker_line; marker_line;
                      py "s10.ts"; py "#EXT-X-ENDLIST"].
Proof.
  apply (proj2 (filter_ad_segments_keeps_content scenario_manifest)
           [py "#EXTM3U"; marker_line; py "s1.ts"; py "s2.ts";
            marker_line; py "s3.ts"; py "s4.ts"]
           marker_line [py "s5.ts"; py "s6.ts"]).
  - vm_compute. reflexivity.
  - exists 1. vm_compute. reflexivity.
  - vm_compute. reflexivity.
  - repeat constructor.
Defined.

(** ** More on the output file name *)

Lemma normalize_output_filename_ends output_filename :
  endswith (py ".mp4") (normalize_output_filename output_filename) = true.
Proof.
  unfold normalize_output_filename.
  destruct (endswith (py ".mp4") output_filename) eqn:E; cbn [negb]; [done|].
  apply endswith_spec. eauto.
Qed.

(** X5.  Normalising an output name twice is the same as normalising it
    once. *)
Theorem normalize_output_filename_idempotent (output_filename : str) :
  normalize_output_filename (normalize_output_filename output_filename)
  = normalize_output_filename output_filename.
Proof.
  unfold normalize_output_filename at 1.
  by rewrite normalize_output_filename_ends.
Qed.

(** ** More on the fetchers *)

Lemma reply_cases r : accepted r \/ exists e, refused r e.
Proof.
  destruct r as [status_code content|e]; cbn [accepted refused]; [|eauto].
  destruct ((400 <=? status_code) && (status_code <? 600))%N eqn:E.
  - right. apply error_status_iff in E. eauto.
  - left. rewrite <- error_status_iff. congruence.
Qed.

Lemma replies_accepted_cons w u urls :
  replies_accepted w (u :: urls) ->
  accepted (http w (length (wire w)) u)
  /\ forall d s, replies_accepted (World d s (wire w ++ [u]) (http w)) urls.
Proof.
  intros Hok. split.
  - specialize (Hok 0 u eq_refl). by rewrite Nat.add_0_r in Hok.
  - intros d s i u' Hi. cbn [wire http]. rewrite length_app. cbn [length].
    replace (length (wire w) + 1 + i) with (length (wire w) + S i) by lia.
    by apply Hok.
Qed.

Section PlainFetcher.
Context `{Library}.

Lemma download_loop_run_plain lines base_url ts_files w :
  download_loop lines base_url ts_files w =
    run_plain (plan_from base_url (length ts_files) (segment_lines lines)) ts_files w.
Proof.
  revert ts_files w.
  induction lines as [|line rest IH]; intros ts_files w; [done|].
  cbn [download_loop]. rewrite segment_lines_cons.
  destruct (is_ts line); [|apply IH].
  cbn [plan_from run_plain]. unfold bind.
  destruct (requests_get _ w) as [w1 [resp|e]]; [|done].
  destruct (raise_for_status resp w1) as [w2 [[]|e]]; [|done].
  destruct (write_wb _ _ w2) as [w3 [[]|e]]; [|done].
  rewrite IH, length_app. cbn [length]. by rewrite Nat.add_1_r.
Qed.

Lemma download_ts_segments_run_plain content base_url w :
  download_ts_segments content base_url w =
    run_plain (segment_plan base_url (manifest_lines content)) [] w.
Proof. apply download_loop_run_plain. Qed.

End PlainFetcher.

(** One step of the plain loop whose reply is accepted. *)
Lemma run_plain_accepted_step u f rest ts_files w :
  accepted (http w (length (wire w)) u) ->
  run_plain ((u, f) :: rest) ts_files w =
    run_plain rest (ts_files ++ [f])
      (World (<[f := body_of (http w (length (wire w)) u)]> (disk w))
             (store w) (wire w ++ [u]) (http w)).
Proof.
  intros Hacc. cbn [run_plain]. unfold bind, requests_get, raise_for_status.
  destruct (http w (length (wire w)) u) as [status_code content|e]; [|done].
  cbn [fst snd accepted body_of] in *. rewrite <- error_status_iff in Hacc.
  by destruct ((400 <=? status_code) && (status_code <? 600))%N.
Qed.

(** One step of the plain loop whose reply is refused. *)
Lemma run_plain_refused_step u f rest ts_files w e :
  refused (http w (length (wire w)) u) e ->
  run_plain ((u, f) :: rest) ts_files w =
    (World (disk w) (store w) (wire w ++ [u]) (http w), Raised e).
Proof.
  intros Href. cbn [run_plain]. unfold bind, requests_get, raise_for_status.
  destruct (http w (length (wire w)) u) as [status_code content|e'];
    cbn [refused fst] in *.
  - destruct Href as [Hs ->]. apply error_status_iff in Hs. by rewrite Hs.
  - by subst.
Qed.

Lemma run_plain_app p1 p2 ts_files w :
  run_plain (p1 ++ p2) ts_files w =
    bind (run_plain p1 ts_files) (fun x => run_plain p2 x) w.
Proof.
  revert ts_files w. induction p1 as [|[u f] p1 IH]; intros ts_files w; [done|].
  destruct (reply_cases (http w (length (wire w)) u)) as [Hacc|[e Href]].
  - cbn [app]. rewrite run_plain_accepted_step by done. rewrite IH.
    unfold bind. by rewrite run_plain_accepted_step.
  - cbn [app]. rewrite (run_plain_refused_step _ _ _ _ _ e) by done.
    unfold bind. by rewrite (run_plain_refused_step _ _ _ _ _ e).
Qed.

(** The plain loop, whatever the replies. *)
Lemma run_plain_trace plan ts_files w w' r :
  run_plain plan ts_files w = (w', r) ->
  (exists k, wire w' = wire w ++ take k (map fst plan))
  /\ store w' = store w
  /\ http w' = http w
  /\ (forall g, g ∉ map snd plan -> disk w' !! g = disk w !! g)
  /\ (forall x, r = Returned x ->
        x = ts_files ++ map snd plan /\ wire w' = wire w ++ map fst plan).
Proof.
  revert ts_files w. induction plan as [|[u f] plan IH]; intros ts_files w.
  - intros [= <- <-]. split; [exists 0; by rewrite app_nil_r|].
    split; [done|]. split; [done|]. split; [done|].
    intros x [= <-]. by rewrite !app_nil_r.
  - destruct (reply_cases (http w (length (wire w)) u)) as [Hacc|[e Href]].
    + rewrite run_plain_accepted_step by done. intros Hrun.
      destruct (IH _ _ Hrun) as ([k Hk] & Hs & Hh & Hd & Hx).
      cbn [wire store http disk map fst snd] in *.
      split; [exists (S k); rewrite Hk; by rewrite <- app_assoc|].
      split; [done|]. split; [done|]. split.
      * intros g Hg. apply not_elem_of_cons in Hg as [Hgf Hg].
        rewrite Hd by done. by rewrite lookup_insert_ne.
      * intros x Hr. destruct (Hx x Hr) as [-> ->]. by rewrite <- !app_assoc.
    + rewrite (run_plain_refused_step _ _ _ _ _ e) by done. intros [= <- <-].
      cbn [wire store http disk map fst snd].
      split; [by exists 1|]. split; [done|]. split; [done|]. split; [done|].
      intros x [=].
Qed.

(** The plain loop when every request is accepted: each file holds the body
    of the reply to its request, unless a later segment has the same
    name. *)
Lemma run_plain_accepted plan ts_files w :
  replies_accepted w (map fst plan) ->
  exists w',
    run_plain plan ts_files w = (w', Returned (ts_files ++ map snd plan))
    /\ (forall k u f,
          plan !! k = Some (u, f) ->
          f ∉ drop (S k) (map snd plan) ->
          disk w' !! f = Some (body_of (http w (length (wire w) + k) u)))
    /\ (forall g, g ∈ map snd plan -> is_Some (disk w' !! g)).
Proof.
  revert ts_files w. induction plan as [|[u f] plan IH]; intros ts_files w Hok.
  - exists w. split; [by rewrite app_nil_r|]. split; [by intros k u f Hk|].
    intros g Hg. by apply not_elem_of_nil in Hg.
  - cbn [map fst] in Hok. apply replies_accepted_cons in Hok as [Hacc Hok].
    rewrite run_plain_accepted_step by done.
    set (w1 := World _ _ _ _).
    destruct (IH (ts_files ++ [f]) w1 (Hok _ _)) as (w' & Hrun & Hfiles & Hsome).
    exists w'. split; [rewrite Hrun; by rewrite <- app_assoc|].
    split; [|intros g Hg; cbn [map snd] in Hg;
             destruct (decide (g ∈ map snd plan)) as [Hin|Hout]; [by apply Hsome|];
             apply elem_of_cons in Hg as [->|Hg]; [|done];
             apply run_plain_trace in Hrun as (_ & _ & _ & Hd & _);
             rewrite Hd by done; subst w1; cbn [disk];
             rewrite lookup_insert_eq; eauto].
    intros k u' f' Hk Hlater. destruct k as [|k].
    + injection Hk as <- <-. cbn [map snd drop] in Hlater.
      apply run_plain_trace in Hrun as (_ & _ & _ & Hd & _).
      rewrite Hd by done. subst w1. cbn [disk].
      by rewrite lookup_insert_eq, Nat.add_0_r.
    + cbn [lookup list_lookup] in Hk. cbn [map snd drop] in Hlater.
      rewrite (Hfiles k u' f' Hk Hlater). subst w1. cbn [wire http].
      rewrite length_app. cbn [length].
      by replace (length (wire w) + 1 + k) with (length (wire w) + S k) by lia.
Qed.

Section PlainFetcherProperties.
Context `{Library}.

(** X6.  [download_ts_segments] in every outcome: it requests the URLs of
    the segment lines in order, one request each and none skipped, up to
    the point where it stops; it touches no file of the working directory
    other than those that bear a segment's name; and when it returns it has
    requested every segment and returns all their names. *)
Theorem download_ts_segments_trace (m3u8_content base_url : str) (w w' : world)
    (r : outcome (list str)) :
  let plan := segment_plan base_url (manifest_lines m3u8_content) in
  download_ts_segments m3u8_content base_url w = (w', r) ->
  (exists k, wire w' = wire w ++ take k (map fst plan))
  /\ (forall g, g ∉ map snd plan -> disk w' !! g = disk w !! g)
  /\ (forall ts_files, r = Returned ts_files ->
        ts_files = map snd plan /\ wire w' = wire w ++ map fst plan).
Proof.
  intros plan Hrun. rewrite download_ts_segments_run_plain in Hrun.
  apply run_plain_trace in Hrun as (Hk & _ & _ & Hd & Hx). done.
Qed.


(** X8.  When a request of [download_ts_segments] is refused, the earlier
    ones having been accepted, the call raises that error after exactly
    those requests; the files of the earlier segments are on disk, and no
    file of the working directory that does not bear the name of an earlier
    segment has changed. *)
Theorem download_ts_segments_refused (m3u8_content base_url : str) (w : world)
    (before : list (str * str)) (ts_url filename : str)
    (after : list (str * str)) (e : exn) :
  segment_plan base_url (manifest_lines m3u8_content)
    = before ++ (ts_url, filename) :: after ->
  replies_accepted w (map fst before) ->
  refused (http w (length (wire w) + length before) ts_url) e ->
  exists w',
    download_ts_segments m3u8_content base_url w = (w', Raised e)
    /\ wire w' = wire w ++ map fst before ++ [ts_url]
    /\ (forall g, g ∈ map snd before -> is_Some (disk w' !! g))
    /\ (forall g, g ∉ map snd before -> disk w' !! g = disk w !! g).
Proof.
  intros Hplan Hok Href. rewrite download_ts_segments_run_plain, Hplan.
  destruct (run_plain_accepted before [] w Hok) as (w1 & Hrun & _ & Hsome).
  pose proof Hrun as Htrace.
  apply run_plain_trace in Htrace as (_ & _ & Hh & Hd & Hx).
  destruct (Hx _ eq_refl) as [_ Hw].
  assert (refused (http w1 (length (wire w1)) ts_url) e) as Href1.
  { by rewrite Hh, Hw, length_app, length_map. }
  exists (World (disk w1) (store w1) (wire w1 ++ [ts_url]) (http w1)).
  split; [|split; [|split]].
  - rewrite run_plain_app. unfold bind. rewrite Hrun.
    by apply run_plain_refused_step.
  - cbn [wire]. rewrite Hw. by rewrite <- app_assoc.
  - done.
  - done.
Qed.

End PlainFetcherProperties.

Lemma download_ts_segments_trace_sample :
  exists w',
    download_ts_segments (H := sample_library) sample_filtered sample_base_url
      failing_world = (w', Raised (HTTPError 503))
    /\ disk w' !! py "segment_2.ts" = None
    /\ exists k, wire w' = wire failing_world ++ take k (map fst sample_plan).
Proof.
  eexists. split; [vm_compute; reflexivity|].
  destruct (download_ts_segments_trace (H := sample_library) sample_filtered
              sample_base_url failing_world _ _ eq_refl) as (Hk & _ & _).
  split; [vm_compute; reflexivity | exact Hk].
Defined.


Lemma download_ts_segments_refused_sample :
  exists w',
    download_ts_segments (H := sample_library) sample_filtered sample_base_url
      failing_world = (w', Raised (HTTPError 503))
    /\ wire w' = [py "http://cdn.example/v/seg_1.ts";
                  py "http://cdn.example/v/seg_2.ts";
                  py "http://cdn.example/v/part/?id=3.ts"]
    /\ is_Some (disk w' !! py "seg_2.ts").
Proof.
  destruct (download_ts_segments_refused (H := sample_library) sample_filtered
              sample_base_url failing_world (take 2 sample_plan)
              (py "http://cdn.example/v/part/?id=3.ts") (py "segment_2.ts")
              (drop 3 sample_plan) (HTTPError 503))
    as (w' & Hrun & Hw & Hsome & _).
  - vm_compute. reflexivity.
  - intros i u Hi. destruct i as [|[|i]];
      [cbn [failing_world http wire length Nat.add Nat.eqb accepted]; lia..|].
    vm_compute in Hi. discriminate.
  - cbn [failing_world http wire length Nat.add Nat.eqb refused take sample_plan].
    split; [lia | reflexivity].
  - exists w'. split; [exact Hrun|]. split; [rewrite Hw; vm_compute; reflexivity|].
    apply Hsome. by_decide.
Defined.

(** ** More on the resume state *)

Lemma add_new_prefix dl f : dl `prefix_of` add_new dl f.
Proof.
  unfold add_new. case_bool_decide; [done|]. by apply prefix_app_r.
Qed.

Lemma add_all_prefix dl names : dl `prefix_of` add_all dl names.
Proof.
  unfold add_all. revert dl. induction names as [|f names IH]; intros dl; [done|].
  cbn [foldl]. etrans; [apply add_new_prefix | apply IH].
Qed.

Lemma add_new_NoDup dl f : NoDup dl -> NoDup (add_new dl f).
Proof.
  intros Hdl. unfold add_new. case_bool_decide as Hf; [done|].
  apply NoDup_app. split; [done|]. split; [|apply NoDup_singleton].
  intros g Hg Hgf. apply list_elem_of_singleton in Hgf as ->. done.
Qed.

Lemma add_all_NoDup dl names : NoDup dl -> NoDup (add_all dl names).
Proof.
  unfold add_all. revert dl. induction names as [|f names IH]; intros dl Hdl; [done|].
  cbn [foldl]. by apply IH, add_new_NoDup.
Qed.

Section ResumeMore.
Context `{Library} `{Buffering}.

(** Assembly when an input file is missing: the files before it are in the
    destination, and [FileNotFoundError] goes up. *)
Lemma concatenate_loop_missing before missing after output_filename chunks w written :
  output_filename ∉ before ->
  (forall f, f ∈ before -> is_Some (disk w !! f)) ->
  disk w !! output_filename = Some written ->
  disk w !! missing = None ->
  concatenate_loop (before ++ missing :: after) output_filename chunks w =
    (World (<[output_filename :=
                written ++ concat (map (fun f => default [] (disk w !! f)) before)]>
              (disk w))
           (store w) (wire w) (http w),
     Raised FileNotFoundError).
Proof.
  revert chunks w written.
  induction before as [|f rest IH]; intros chunks w written Hout Hall Hw Hmiss.
  - cbn [app concatenate_loop map concat].
    rewrite read_input_other by (intros ->; by rewrite Hw in Hmiss).
    unfold bind, read_rb. rewrite Hmiss, app_nil_r, insert_id by done.
    by destruct w.
  - apply not_elem_of_cons in Hout as [Hne Hout].
    destruct (Hall f) as [data Hf]; [left|].
    assert (missing ≠ output_filename) as Hmo
      by (intros ->; by rewrite Hw in Hmiss).
    cbn [app concatenate_loop]. rewrite read_input_other by done.
    unfold bind at 1 2. unfold read_rb at 1. unfold append_wb at 1.
    rewrite Hf, Hw. cbn [from_option id].
    assert (map (fun g => default [] (<[output_filename := written ++ data]> (disk w) !! g)) rest
            = map (fun g => default [] (disk w !! g)) rest) as Hmap.
    { apply map_ext_in. intros g Hg. apply list_elem_of_In in Hg.
      rewrite lookup_insert_ne; [done|]. by intros ->. }
    rewrite (IH _ _ (written ++ data)); cbn [disk store wire http].
    + rewrite insert_insert_eq, Hmap. cbn [map concat]. rewrite Hf.
      cbn [from_option id]. by rewrite <- app_assoc.
    + done.
    + intros g Hg. rewrite lookup_insert_ne; [|by intros ->].
      apply Hall. by right.
    + apply lookup_insert_eq.
    + by rewrite lookup_insert_ne.
Qed.

(** The loop from a state file that holds the loop's state, whatever the
    replies: the names recorded are those of the first [j] pending
    segments, all of which were requested. *)
Lemma run_plan_progress plan completed m3u8_url ts_files dl st w w' r :
  store w !! get_download_state_filename m3u8_url = Some (Text (Encodes st)) ->
  key_downloaded_segments st = dl ->
  run_plan plan completed m3u8_url ts_files dl st w = (w', r) ->
  exists j,
    store w' =
      <[get_download_state_filename m3u8_url :=
          Text (Encodes
                  {| key_downloaded_segments :=
                       add_all dl (map snd (take j (pending completed plan)));
                     key_total_segments := key_total_segments st |})]> (store w)
    /\ (exists k, j <= k
          /\ wire w' = wire w ++ map fst (take k (pending completed plan)))
    /\ (forall x, r = Returned x -> take j (pending completed plan) = pending completed plan).
Proof.
  revert ts_files dl st w.
  induction plan as [|[u f] plan IH]; intros ts_files dl st w Hst Hdl.
  - intros [= <- <-]. exists 0. cbn. destruct st as [d t]; cbn in *; subst.
    split; [by rewrite insert_id|]. split; [|done].
    exists 0. split; [done|]. by rewrite app_nil_r.
  - cbn [run_plan]. case_bool_decide as Hf.
    + rewrite pending_cons_skip by done. by apply IH.
    + rewrite pending_cons_keep by done.
      destruct (reply_cases (http w (length (wire w)) u)) as [Hacc|[e Href]].
      * destruct (fetch_segment_accepted u f m3u8_url ts_files dl st w Hacc)
          as [content Hfetch]; [by rewrite Hst|].
        cbv zeta in Hfetch. unfold bind. rewrite Hfetch. cbn [fst snd].
        set (st1 := {| key_downloaded_segments := add_new dl f;
                       key_total_segments := key_total_segments st |}).
        set (w1 := World _ _ _ _). intros Hrun.
        destruct (IH (ts_files ++ [f]) (add_new dl f) st1 w1) as (j & Hs & (k & Hjk & Hw) & Hx).
        { subst w1. cbn. by rewrite lookup_insert_eq. }
        { done. }
        { exact Hrun. }
        exists (S j). subst w1 st1. cbn [store wire key_total_segments take map snd fst] in *.
        split; [rewrite Hs; by rewrite insert_insert_eq|].
        split; [exists (S k); split; [lia|]; rewrite Hw; cbn [take map fst];
                by rewrite <- app_assoc|].
        intros x Hr. by rewrite (Hx x Hr).
      * unfold bind. rewrite (fetch_segment_refused _ _ _ _ _ _ _ e Href).
        intros [= <- <-]. exists 0. cbn [take map store wire add_all foldl].
        destruct st as [d t]; cbn in *; subst.
        split; [by rewrite insert_id|]. split; [|intros x [=]].
        exists 1. split; [lia|]. done.
Qed.

(** A pass in which every segment is in the completed set. *)
Lemma resume_all_completed content base_url completed m3u8_url w :
  state_readable m3u8_url w ->
  Forall (fun p => p.2 ∈ completed) (segment_plan base_url (manifest_lines content)) ->
  exists w',
    download_ts_segments_with_resume content base_url completed m3u8_url w
    = (w', Returned (map snd (segment_plan base_url (manifest_lines content))))
    /\ wire w' = wire w
    /\ disk w' = disk w
    /\ http w' = http w
    /\ store w' =
         <[get_download_state_filename m3u8_url :=
             Text (Encodes
                     {| key_downloaded_segments :=
                          key_downloaded_segments (stored_state m3u8_url w);
                        key_total_segments :=
                          length (segment_lines (manifest_lines content)) |})]>
           (store w).
Proof.
  intros Hread Hall.
  rewrite download_ts_segments_with_resume_eq by done.
  set (plan := segment_plan _ _) in *.
  set (st0 := {| key_downloaded_segments := _; key_total_segments := _ |}).
  set (w0 := World _ _ _ _).
  destruct (run_plan_accepted plan completed m3u8_url []
              (key_downloaded_segments (stored_state m3u8_url w)) st0 w0)
    as (w' & Hrun & Hw & Hs & Hh & Hd).
  - subst w0. cbn. by rewrite lookup_insert_eq.
  - done.
  - rewrite pending_all_completed by done. intros i u Hi. done.
  - rewrite pending_all_completed in Hw, Hd, Hs by done.
    exists w'. unfold bind. rewrite Hrun. split; [done|].
    split; [rewrite Hw; subst w0; cbn; by rewrite app_nil_r|].
    split; [apply map_eq; intros g; apply Hd, not_elem_of_nil|].
    split; [done|].
    rewrite Hs. subst w0. cbn [store map add_all foldl key_total_segments].
    by rewrite insert_insert_eq.
Qed.

(** X9.  Saving a state and loading it back gives the state that was saved,
    and touches neither the disk nor the network; when the state file cannot
    be opened, saving raises [PermissionError] and changes nothing. *)
Theorem save_then_load_download_state (m3u8_url : str) (state : state_dict) (w : world) :
  (store w !! get_download_state_filename m3u8_url ≠ Some Locked ->
   exists w',
     save_download_state m3u8_url state w = (w', Returned tt)
     /\ load_download_state m3u8_url w' = (w', Returned state)
     /\ disk w' = disk w /\ wire w' = wire w
     /\ (forall name, name ≠ get_download_state_filename m3u8_url ->
                      store w' !! name = store w !! name))
  /\ (store w !! get_download_state_filename m3u8_url = Some Locked ->
      save_download_state m3u8_url state w = (w, Raised PermissionError)).
Proof.
  split.
  - intros Hlock. rewrite save_download_state_eq by done.
    eexists. split; [reflexivity|].
    rewrite load_download_state_eq. cbn [store disk wire].
    rewrite lookup_insert_eq. split; [done|]. split; [done|]. split; [done|].
    intros name Hne. by rewrite lookup_insert_ne.
  - intros Hlock. unfold save_download_state, json_dump_w. by rewrite Hlock.
Qed.

(** X10.  After a resume-aware pass from a readable state file, whatever
    its outcome, the state file is readable; it records the number of
    segment lines; the names it held before are still there, first and in
    the same order; every other name it holds is the name of a segment that
    was not in the completed set; it has no duplicates if it had none; and
    when the pass returned it holds the name of every such segment. *)
Theorem resume_state_progress (m3u8_content base_url : str)
    (downloaded_segments : gset str) (m3u8_url : str) (w w' : world)
    (r : outcome (list str)) :
  let plan := segment_plan base_url (manifest_lines m3u8_content) in
  let old := key_downloaded_segments (stored_state m3u8_url w) in
  state_readable m3u8_url w ->
  download_ts_segments_with_resume m3u8_content base_url
    downloaded_segments m3u8_url w = (w', r) ->
  exists st',
    store w' !! get_download_state_filename m3u8_url = Some (Text (Encodes st'))
    /\ key_total_segments st' = length (segment_lines (manifest_lines m3u8_content))
    /\ old `prefix_of` key_downloaded_segments st'
    /\ (forall g, g ∈ key_downloaded_segments st' ->
                  g ∈ old \/ g ∈ map snd (pending downloaded_segments plan))
    /\ (NoDup old -> NoDup (key_downloaded_segments st'))
    /\ (forall ts_files, r = Returned ts_files ->
          forall g, g ∈ map snd (pending downloaded_segments plan) ->
                    g ∈ key_downloaded_segments st').
Proof.
  intros plan old Hread Hrun.
  rewrite download_ts_segments_with_resume_eq in Hrun by done.
  fold plan old in Hrun. unfold bind in Hrun.
  set (st0 := {| key_downloaded_segments := _; key_total_segments := _ |}) in Hrun.
  set (w0 := World _ _ _ _) in Hrun.
  destruct (run_plan plan downloaded_segments m3u8_url [] old st0 w0)
    as [w3 rx] eqn:Hplan.
  assert (w' = w3) as -> by (destruct rx; unfold ret in Hrun; congruence).
  apply run_plan_progress in Hplan as (j & Hs & _ & Hx);
    [|subst w0; cbn; by rewrite lookup_insert_eq|done].
  subst w0. cbn [store key_total_segments st0] in Hs.
  rewrite insert_insert_eq in Hs.
  eexists. split; [rewrite Hs; by rewrite lookup_insert_eq|].
  cbn [key_total_segments key_downloaded_segments].
  split; [done|]. split; [apply add_all_prefix|].
  split; [|split; [apply add_all_NoDup|]].
  - intros g Hg. apply elem_of_add_all in Hg as [Hg|Hg]; [by left|right].
    apply list_elem_of_fmap in Hg as (p & -> & Hp).
    apply list_elem_of_fmap. exists p. split; [done|].
    by apply (subseteq_take j).
  - intros ts Hr g Hg. apply elem_of_add_all. right.
    destruct rx as [x|e]; [|unfold ret in Hrun; congruence].
    by rewrite (Hx x eq_refl).
Qed.

Lemma plan_names_recorded (plan : list (str * str)) (old : list str) :
  Forall (fun p => p.2 ∈ (list_to_set
                            (add_all old (map snd (pending (list_to_set old) plan)))
                          : gset str))
         plan.
Proof.
  apply Forall_forall. intros p Hp. rewrite elem_of_list_to_set.
  apply elem_of_add_all.
  destruct (decide (p.2 ∈ (list_to_set old : gset str))) as [Hin|Hout].
  - left. by apply elem_of_list_to_set in Hin.
  - right. apply list_elem_of_fmap. exists p. split; [done|].
    unfold pending. by apply list_elem_of_filter.
Qed.

(** X11.  After a pass that returned, a second pass over the same manifest
    whose completed set is read from the state file makes no request at
    all, changes no file, and returns the same names, whatever the server
    would answer. *)
Theorem resume_after_success_is_free (m3u8_content base_url m3u8_url : str)
    (w : world) :
  let plan := segment_plan base_url (manifest_lines m3u8_content) in
  let old := key_downloaded_segments (stored_state m3u8_url w) in
  state_readable m3u8_url w ->
  replies_accepted w (map fst (pending (list_to_set old) plan)) ->
  exists w1,
    download_ts_segments_with_resume m3u8_content base_url
      (list_to_set old) m3u8_url w = (w1, Returned (map snd plan))
    /\ exists w2,
        download_ts_segments_with_resume m3u8_content base_url
          (list_to_set (key_downloaded_segments (stored_state m3u8_url w1)))
          m3u8_url w1 = (w2, Returned (map snd plan))
        /\ wire w2 = wire w1 /\ disk w2 = disk w1.
Proof.
  intros plan old Hread Hok.
  rewrite download_ts_segments_with_resume_eq by done. fold plan old.
  set (st0 := {| key_downloaded_segments := _; key_total_segments := _ |}).
  set (w0 := World _ _ _ _).
  destruct (run_plan_accepted plan (list_to_set old) m3u8_url [] old st0 w0)
    as (w1 & Hrun & _ & Hs & _ & _).
  { subst w0. cbn. by rewrite lookup_insert_eq. }
  { done. }
  { exact Hok. }
  exists w1. unfold bind. rewrite Hrun. split; [done|].
  assert (store w1 !! get_download_state_filename m3u8_url
          = Some (Text (Encodes
                          {| key_downloaded_segments :=
                               add_all old (map snd (pending (list_to_set old) plan));
                             key_total_segments := key_total_segments st0 |})))
    as Hst1 by (rewrite Hs; by rewrite lookup_insert_eq).
  destruct (resume_all_completed m3u8_content base_url
              (list_to_set (key_downloaded_segments (stored_state m3u8_url w1)))
              m3u8_url w1) as (w2 & Hrun2 & Hw2 & Hd2 & _).
  - unfold state_readable. by rewrite Hst1.
  - unfold stored_state. rewrite Hst1. cbn [key_downloaded_segments].
    apply plan_names_recorded.
  - exists w2. done.
Qed.

Lemma concatenate_videos_missing_eq before missing after output_filename w :
  output_filename ∉ before ->
  output_filename ≠ missing ->
  (forall f, f ∈ before -> is_Some (disk w !! f)) ->
  disk w !! missing = None ->
  concatenate_videos (before ++ missing :: after) output_filename w =
    (World (<[output_filename :=
                concat (map (fun f => default [] (disk w !! f)) before)]> (disk w))
           (store w) (wire w) (http w),
     Raised FileNotFoundError).
Proof.
  intros Hout Hne Hall Hmiss.
  unfold concatenate_videos, bind, write_wb.
  rewrite (concatenate_loop_missing _ _ _ _ _ _ []); cbn [disk store wire http].
  - rewrite insert_insert_eq. cbn [app]. do 4 f_equal.
    apply map_ext_in. intros g Hg. apply list_elem_of_In in Hg.
    rewrite lookup_insert_ne; [done|]. by intros ->.
  - done.
  - intros g Hg. rewrite lookup_insert_ne; [by apply Hall|]. by intros ->.
  - apply lookup_insert_eq.
  - by rewrite lookup_insert_ne.
Qed.

(** X12.  The completed set is trusted without a look at the disk.  When
    the state file is readable and every segment name is in the completed
    set, the pass returns all names without a request; the one file it
    writes is the state file, which keeps its list and gets the number of
    segments.  This also when the file of a segment is not on disk; then,
    for a destination that is neither the absent name nor a name before
    it, assembling the returned list raises [FileNotFoundError]. *)
Theorem resume_trusts_completed_set (m3u8_content base_url : str)
    (downloaded_segments : gset str) (m3u8_url : str) (w : world)
    (before : list str) (missing : str) (after : list str)
    (output_filename : str) :
  let plan := segment_plan base_url (manifest_lines m3u8_content) in
  state_readable m3u8_url w ->
  Forall (fun p => p.2 ∈ downloaded_segments) plan ->
  map snd plan = before ++ missing :: after ->
  (forall f, f ∈ before -> is_Some (disk w !! f)) ->
  disk w !! missing = None ->
  output_filename ∉ before ->
  output_filename ≠ missing ->
  exists w1 w2,
    download_ts_segments_with_resume m3u8_content base_url
      downloaded_segments m3u8_url w = (w1, Returned (map snd plan))
    /\ wire w1 = wire w
    /\ disk w1 = disk w
    /\ store w1 =
         <[get_download_state_filename m3u8_url :=
             Text (Encodes
                     {| key_downloaded_segments :=
                          key_downloaded_segments (stored_state m3u8_url w);
                        key_total_segments :=
                          length (segment_lines (manifest_lines m3u8_content)) |})]>
           (store w)
    /\ concatenate_videos (map snd plan) output_filename w1
       = (w2, Raised FileNotFoundError).
Proof.
  intros plan Hread Hall Hnames Hbefore Hmiss Hout Hne.
  destruct (resume_all_completed m3u8_content base_url downloaded_segments
              m3u8_url w Hread Hall) as (w1 & Hrun & Hw & Hd & _ & Hs).
  exists w1. eexists. split; [exact Hrun|]. split; [done|]. split; [done|].
  split; [exact Hs|].
  fold plan. rewrite Hnames.
  apply concatenate_videos_missing_eq; rewrite ?Hd; done.
Qed.


End ResumeMore.

(** ** More samples *)

Lemma save_then_load_download_state_sample :
  exists w',
    save_download_state (H := sample_library) sample_m3u8_url
      {| key_downloaded_segments := [py "seg_1.ts"]; key_total_segments := 4 |}
      fresh_world = (w', Returned tt)
    /\ load_download_state (H := sample_library) sample_m3u8_url w'
       = (w', Returned {| key_downloaded_segments := [py "seg_1.ts"];
                          key_total_segments := 4 |}).
Proof.
  destruct (proj1 (save_then_load_download_state (H := sample_library)
                     sample_m3u8_url
                     {| key_downloaded_segments := [py "seg_1.ts"];
                        key_total_segments := 4 |} fresh_world))
    as (w' & Hsave & Hload & _).
  - vm_compute. discriminate.
  - exists w'. done.
Defined.

Lemma resume_state_progress_sample :
  exists w' st',
    download_ts_segments_with_resume (H := sample_library) sample_filtered
      sample_base_url ∅ sample_m3u8_url failing_world = (w', Raised (HTTPError 503))
    /\ store w' !! sample_state_file = Some (Text (Encodes st'))
    /\ key_total_segments st' = 4
    /\ NoDup (key_downloaded_segments st').
Proof.
  assert (exists w',
             download_ts_segments_with_resume (H := sample_library) sample_filtered
               sample_base_url ∅ sample_m3u8_url failing_world
             = (w', Raised (HTTPError 503))) as [w' Hrun]
    by (eexists; vm_compute; reflexivity).
  destruct (resume_state_progress (H := sample_library) sample_filtered
              sample_base_url ∅ sample_m3u8_url failing_world w' _
              ltac:(vm_compute; exact I) Hrun)
    as (st' & Hst & Htotal & _ & _ & Hnodup & _).
  exists w', st'. split; [exact Hrun|]. split; [exact Hst|].
  split; [exact Htotal|]. apply Hnodup. vm_compute. constructor.
Defined.

Lemma resume_after_success_is_free_sample :
  exists w1 w2,
    download_ts_segments_with_resume (H := sample_library) sample_filtered
      sample_base_url (list_to_set [py "seg_2.ts"]) sample_m3u8_url resumed_world
    = (w1, Returned sample_names)
    /\ download_ts_segments_with_resume (H := sample_library) sample_filtered
         sample_base_url
         (list_to_set (key_downloaded_segments
                         (stored_state (H := sample_library) sample_m3u8_url w1)))
         sample_m3u8_url w1
       = (w2, Returned sample_names)
    /\ wire w2 = wire w1.
Proof.
  destruct (resume_after_success_is_free (H := sample_library) sample_filtered
              sample_base_url sample_m3u8_url resumed_world)
    as (w1 & Hrun1 & w2 & Hrun2 & Hw & _).
  - vm_compute. exact I.
  - apply sample_replies_accepted.
  - exists w1, w2. split; [exact Hrun1|]. split; [exact Hrun2 | exact Hw].
Defined.

Lemma resume_trusts_completed_set_sample :
  exists w1 w2,
    download_ts_segments_with_resume (H := sample_library) sample_filtered
      sample_base_url (list_to_set sample_names) sample_m3u8_url stale_world
    = (w1, Returned sample_names)
    /\ wire w1 = []
    /\ disk w1 = disk stale_world
    /\ concatenate_videos (H := sample_buffering) sample_names
         (py "temp_concatenated.ts") w1
       = (w2, Raised FileNotFoundError).
Proof.
  destruct (resume_trusts_completed_set (H := sample_library)
              (H0 := sample_buffering) sample_filtered
              sample_base_url (list_to_set sample_names) sample_m3u8_url stale_world
              [py "seg_1.ts"; py "seg_2.ts"; py "segment_2.ts"] (py "seg_4.ts") []
              (py "temp_concatenated.ts"))
    as (w1 & w2 & Hrun & Hw & Hd & _ & Hcat).
  - vm_compute. exact I.
  - apply Forall_forall. intros p Hp. rewrite elem_of_list_to_set.
    change (segment_plan (H := sample_library) sample_base_url
              (manifest_lines sample_filtered)) with sample_plan in Hp.
    repeat (apply elem_of_cons in Hp as [->|Hp]; [by_decide|]).
    by apply not_elem_of_nil in Hp.
  - vm_compute. reflexivity.
  - intros f Hf.
    repeat (apply elem_of_cons in Hf as [->|Hf]; [vm_compute; eauto|]).
    by apply not_elem_of_nil in Hf.
  - vm_compute. reflexivity.
  - by_decide.
  - by_decide.
  - exists w1, w2. split; [exact Hrun|]. split; [exact Hw|].
    split; [exact Hd | exact Hcat].
Defined.


(** ** Clean-up and conversion *)

Lemma os_remove_present name w :
  is_Some (disk w !! name) ->
  os_remove name w =
    (World (delete name (disk w)) (store w) (wire w) (http w), Returned tt).
Proof. intros [data Hd]. unfold os_remove. by rewrite Hd. Qed.

Lemma os_remove_absent name w :
  disk w !! name = None -> os_remove name w = (w, Raised FileNotFoundError).
Proof. intros Hd. unfold os_remove. by rewrite Hd. Qed.

Lemma remove_loop_app l1 l2 w :
  remove_loop (l1 ++ l2) w = bind (remove_loop l1) (fun _ => remove_loop l2) w.
Proof.
  revert w. induction l1 as [|f l1 IH]; intros w; [done|].
  cbn [app remove_loop]. unfold bind.
  destruct (os_remove f w) as [w1 [[]|e]]; [|done]. by rewrite IH.
Qed.

(** Removing files, whatever happens: only the disk changes, only listed
    files change, and no file appears. *)
Lemma remove_loop_frame ts_files w w' r :
  remove_loop ts_files w = (w', r) ->
  store w' = store w /\ wire w' = wire w /\ http w' = http w
  /\ (forall g, g ∉ ts_files -> disk w' !! g = disk w !! g)
  /\ (forall g, disk w !! g = None -> disk w' !! g = None)
  /\ (r = Returned tt \/ r = Raised FileNotFoundError).
Proof.
  revert w. induction ts_files as [|f rest IH]; intros w.
  - intros [= <- <-]. repeat split; auto.
  - cbn [remove_loop]. unfold bind, os_remove.
    destruct (disk w !! f) as [data|] eqn:Hf.
    + intros Hrun. destruct (IH _ Hrun) as (Hs & Hw & Hh & Hd & Hn & Hr).
      cbn [disk store wire http] in *.
      split; [done|]. split; [done|]. split; [done|]. split; [|split; [|done]].
      * intros g Hg. apply not_elem_of_cons in Hg as [Hgf Hg].
        rewrite Hd by done. by rewrite lookup_delete_ne.
      * intros g Hg. apply Hn.
        destruct (decide (f = g)) as [->|Hne];
          [apply lookup_delete_eq | by rewrite lookup_delete_ne].
    + intros [= <- <-]. repeat split; auto.
Qed.

(** Removing files that are all there and all different. *)
Lemma remove_loop_all ts_files w :
  NoDup ts_files ->
  (forall f, f ∈ ts_files -> is_Some (disk w !! f)) ->
  exists w',
    remove_loop ts_files w = (w', Returned tt)
    /\ (forall g, g ∈ ts_files -> disk w' !! g = None)
    /\ (forall g, g ∉ ts_files -> disk w' !! g = disk w !! g)
    /\ store w' = store w /\ wire w' = wire w /\ http w' = http w.
Proof.
  revert w. induction ts_files as [|f rest IH]; intros w Hnd Hall.
  - exists w. repeat split; auto. intros g Hg. by apply not_elem_of_nil in Hg.
  - apply NoDup_cons in Hnd as [Hf Hnd].
    cbn [remove_loop]. unfold bind. rewrite os_remove_present by (apply Hall; left).
    destruct (IH (World (delete f (disk w)) (store w) (wire w) (http w)) Hnd)
      as (w' & Hrun & Hgone & Hkeep & Hs & Hw & Hh).
    { intros g Hg. cbn [disk]. rewrite lookup_delete_ne; [apply Hall; by right|].
      by intros ->. }
    cbn [disk store wire http] in *.
    exists w'. split; [done|]. split; [|split; [|done]].
    + intros g Hg. apply elem_of_cons in Hg as [->|Hg]; [|by apply Hgone].
      rewrite Hkeep by done. apply lookup_delete_eq.
    + intros g Hg. apply not_elem_of_cons in Hg as [Hgf Hg].
      rewrite Hkeep by done. by rewrite lookup_delete_ne.
Qed.

(** Removing files stops at the first one that is not there, be it absent
    from the start or removed a moment ago. *)
Lemma remove_loop_stops before bad after w :
  NoDup before ->
  (forall f, f ∈ before -> is_Some (disk w !! f)) ->
  bad ∈ before \/ disk w !! bad = None ->
  exists w',
    remove_loop (before ++ bad :: after) w = (w', Raised FileNotFoundError)
    /\ (forall g, g ∈ before -> disk w' !! g = None)
    /\ (forall g, g ∉ before -> disk w' !! g = disk w !! g)
    /\ store w' = store w /\ wire w' = wire w /\ http w' = http w.
Proof.
  intros Hnd Hall Hbad.
  destruct (remove_loop_all before w Hnd Hall)
    as (w1 & Hrun & Hgone & Hkeep & Hs & Hw & Hh).
  exists w1. rewrite remove_loop_app. unfold bind. rewrite Hrun.
  cbn [remove_loop]. unfold bind. rewrite os_remove_absent; [done|].
  destruct (decide (bad ∈ before)) as [Hin|Hout]; [by apply Hgone|].
  rewrite Hkeep by done. by destruct Hbad.
Qed.

(** X14.  [cleanup_temp_files] never raises: it always returns; it makes
    no request, creates no file, and leaves alone every file of the working
    directory that is neither the temporary manifest nor in the list. *)
Theorem cleanup_temp_files_never_raises (temp_m3u8_path : str)
    (ts_files : list str) (w : world) :
  exists w',
    cleanup_temp_files temp_m3u8_path ts_files w = (w', Returned tt)
    /\ wire w' = wire w
    /\ (forall g, g ∉ temp_m3u8_path :: ts_files -> disk w' !! g = disk w !! g)
    /\ (forall g, disk w !! g = None -> disk w' !! g = None).
Proof.
  unfold cleanup_temp_files, try_except.
  change (bind (os_remove temp_m3u8_path) (fun _ => remove_loop ts_files) w)
    with (remove_loop (temp_m3u8_path :: ts_files) w).
  destruct (remove_loop (temp_m3u8_path :: ts_files) w) as [w1 r] eqn:Hrun.
  apply remove_loop_frame in Hrun as (_ & Hw & _ & Hd & Hn & Hr).
  exists w1. destruct Hr as [-> | ->]; cbn [is_Exception]; unfold ret; done.
Qed.

(** X15.  When the temporary manifest and the listed files are all on disk
    and all different, [cleanup_temp_files] removes every one of them. *)
Theorem cleanup_temp_files_removes_all (temp_m3u8_path : str)
    (ts_files : list str) (w : world) :
  NoDup (temp_m3u8_path :: ts_files) ->
  (forall f, f ∈ temp_m3u8_path :: ts_files -> is_Some (disk w !! f)) ->
  exists w',
    cleanup_temp_files temp_m3u8_path ts_files w = (w', Returned tt)
    /\ (forall g, g ∈ temp_m3u8_path :: ts_files -> disk w' !! g = None).
Proof.
  intros Hnd Hall.
  destruct (remove_loop_all _ w Hnd Hall) as (w' & Hrun & Hgone & _).
  exists w'. unfold cleanup_temp_files, try_except.
  change (bind (os_remove temp_m3u8_path) (fun _ => remove_loop ts_files) w)
    with (remove_loop (temp_m3u8_path :: ts_files) w).
  by rewrite Hrun.
Qed.

(** X16.  [cleanup_temp_files] stops at the first file it cannot remove,
    one that is absent or that it removed a moment ago because the list
    names it twice, and says nothing to the caller: the files before it
    are gone and every other file, the listed ones after it included, is
    still on disk.  In particular nothing is removed when the temporary
    manifest is absent. *)
Theorem cleanup_temp_files_stops (temp_m3u8_path : str) (ts_files : list str)
    (w : world) (before : list str) (bad : str) (after : list str) :
  temp_m3u8_path :: ts_files = before ++ bad :: after ->
  NoDup before ->
  (forall f, f ∈ before -> is_Some (disk w !! f)) ->
  bad ∈ before \/ disk w !! bad = None ->
  exists w',
    cleanup_temp_files temp_m3u8_path ts_files w = (w', Returned tt)
    /\ (forall g, g ∈ before -> disk w' !! g = None)
    /\ (forall g, g ∉ before -> disk w' !! g = disk w !! g).
Proof.
  intros Hlist Hnd Hall Hbad.
  destruct (remove_loop_stops before bad after w Hnd Hall Hbad)
    as (w' & Hrun & Hgone & Hkeep & _).
  exists w'. unfold cleanup_temp_files, try_except.
  change (bind (os_remove temp_m3u8_path) (fun _ => remove_loop ts_files) w)
    with (remove_loop (temp_m3u8_path :: ts_files) w).
  rewrite Hlist, Hrun. done.
Qed.

Section Conversion.
Context `{Platform}.

(** [convert_ts_to_mp4] changes nothing but the disk. *)
Lemma convert_ts_to_mp4_frame input_ts_file output_mp4_file w w' r :
  convert_ts_to_mp4 input_ts_file output_mp4_file w = (w', r) ->
  store w' = store w /\ wire w' = wire w /\ http w' = http w.
Proof.
  unfold convert_ts_to_mp4.
  repeat match goal with
         | |- context [match ?x with _ => _ end] => destruct x
         end; intros [= <- <-]; done.
Qed.


End Conversion.

(** ** The entry points *)

Lemma disk_only_bind {A B} (c : M A) (k : A -> M B) :
  disk_only c -> (forall a, disk_only (k a)) -> disk_only (bind c k).
Proof.
  intros Hc Hk w w' r. unfold bind.
  destruct (c w) as [w1 [a|e]] eqn:E.
  - intros Hrun. destruct (Hc _ _ _ E) as (Hs & Hw & Hh).
    destruct (Hk a _ _ _ Hrun) as (Hs' & Hw' & Hh').
    split; [congruence|]. split; congruence.
  - intros [= <- <-]. by apply (Hc _ _ _ E).
Qed.

Lemma disk_only_try_except {A} (body : M A) catches handler :
  disk_only body -> (forall e, disk_only (handler e)) ->
  disk_only (try_except body catches handler).
Proof.
  intros Hb Hh w w' r. unfold try_except.
  destruct (body w) as [w1 [a|e]] eqn:E.
  - intros [= <- <-]. by apply (Hb _ _ _ E).
  - destruct (Hb _ _ _ E) as (Hs & Hw & Hh').
    destruct (catches e); [|by intros [= <- <-]].
    intros Hrun. destruct (Hh e _ _ _ Hrun) as (Hs' & Hw' & Hh'').
    split; [congruence|]. split; congruence.
Qed.

Lemma disk_only_ret {A} (a : A) : disk_only (ret a).
Proof. by intros w w' r [= <- <-]. Qed.

Lemma disk_only_os_remove name : disk_only (os_remove name).
Proof.
  intros w w' r. unfold os_remove.
  destruct (disk w !! name); by intros [= <- <-].
Qed.

Lemma disk_only_write_wb name data : disk_only (write_wb name data).
Proof. by intros w w' r [= <- <-]. Qed.

Lemma disk_only_remove_loop ts_files : disk_only (remove_loop ts_files).
Proof. intros w w' r Hrun. by apply remove_loop_frame in Hrun as (? & ? & ? & _). Qed.

Lemma disk_only_cleanup temp ts_files : disk_only (cleanup_temp_files temp ts_files).
Proof.
  apply disk_only_try_except; [|intros e; apply disk_only_ret].
  apply disk_only_bind; [apply disk_only_os_remove|].
  intros _. apply disk_only_remove_loop.
Qed.

Lemma disk_only_concatenate_loop `{Buffering} ts_files output_filename chunks :
  disk_only (concatenate_loop ts_files output_filename chunks).
Proof.
  revert chunks.
  induction ts_files as [|f rest IH]; intros chunks; [apply disk_only_ret|].
  cbn [concatenate_loop]. apply disk_only_bind.
  - intros w w' r. unfold read_input, read_rb. case_bool_decide.
    + by intros [= <- <-].
    + destruct (disk w !! f); by intros [= <- <-].
  - intros data. apply disk_only_bind; [by intros w w' r [= <- <-]|].
    intros _. apply IH.
Qed.

Lemma disk_only_concatenate_videos `{Buffering} ts_files output_filename :
  disk_only (concatenate_videos ts_files output_filename).
Proof.
  apply disk_only_bind; [apply disk_only_write_wb|].
  intros _. apply disk_only_concatenate_loop.
Qed.

Lemma disk_only_convert `{Platform} input output :
  disk_only (convert_ts_to_mp4 input output).
Proof. intros w w' r. apply convert_ts_to_mp4_frame. Qed.


Section EntryPointProperties.
Context `{Library} `{Platform} `{Buffering}.

(** The entry points up to the fetch of the segments. *)
Lemma download_m3u8_video_to_mp4_accepted m3u8_url output_filename w :
  accepted (http w (length (wire w)) m3u8_url) ->
  download_m3u8_video_to_mp4 m3u8_url output_filename w =
    bind (download_ts_segments
            (filtered_manifest (http w (length (wire w)) m3u8_url))
            (base_url_of m3u8_url))
         (after_fetch (normalize_output_filename output_filename))
         (world_with_manifest m3u8_url w).
Proof.
  intros Hacc. unfold download_m3u8_video_to_mp4.
  unfold bind at 1. unfold requests_get.
  unfold filtered_manifest, world_with_manifest, filtered_manifest.
  destruct (http w (length (wire w)) m3u8_url) as [status_code content|e]; [|done].
  cbn [accepted] in Hacc. rewrite <- error_status_iff in Hacc.
  unfold bind at 1. unfold raise_for_status. cbn [fst].
  destruct ((400 <=? status_code) && (status_code <? 600))%N; [done|].
  reflexivity.
Qed.

Lemma download_m3u8_video_to_mp4_refused m3u8_url output_filename w e :
  refused (http w (length (wire w)) m3u8_url) e ->
  download_m3u8_video_to_mp4 m3u8_url output_filename w =
    (World (disk w) (store w) (wire w ++ [m3u8_url]) (http w), Raised e).
Proof.
  intros Href. unfold download_m3u8_video_to_mp4.
  unfold bind at 1. unfold requests_get.
  destruct (http w (length (wire w)) m3u8_url) as [status_code content|e'];
    cbn [refused] in Href.
  - destruct Href as [Hs ->]. apply error_status_iff in Hs.
    unfold bind at 1. unfold raise_for_status. cbn [fst]. by rewrite Hs.
  - by subst.
Qed.

Lemma download_m3u8_video_to_mp4_with_resume_accepted m3u8_url output_filename w :
  state_readable m3u8_url w ->
  accepted (http w (length (wire w)) m3u8_url) ->
  download_m3u8_video_to_mp4_with_resume m3u8_url output_filename w =
    bind (download_ts_segments_with_resume
            (filtered_manifest (http w (length (wire w)) m3u8_url))
            (base_url_of m3u8_url)
            (list_to_set (key_downloaded_segments (stored_state m3u8_url w)))
            m3u8_url)
         (after_fetch_with_resume m3u8_url (normalize_output_filename output_filename))
         (world_with_manifest m3u8_url w).
Proof.
  intros Hread Hacc. unfold download_m3u8_video_to_mp4_with_resume.
  unfold bind at 1. rewrite load_download_state_readable by done.
  unfold bind at 1. unfold requests_get.
  unfold filtered_manifest, world_with_manifest, filtered_manifest.
  destruct (http w (length (wire w)) m3u8_url) as [status_code content|e]; [|done].
  cbn [accepted] in Hacc. rewrite <- error_status_iff in Hacc.
  unfold bind at 1. unfold raise_for_status. cbn [fst].
  destruct ((400 <=? status_code) && (status_code <? 600))%N; [done|].
  reflexivity.
Qed.

Lemma download_m3u8_video_to_mp4_with_resume_refused m3u8_url output_filename w e :
  state_readable m3u8_url w ->
  refused (http w (length (wire w)) m3u8_url) e ->
  download_m3u8_video_to_mp4_with_resume m3u8_url output_filename w =
    (World (disk w) (store w) (wire w ++ [m3u8_url]) (http w), Raised e).
Proof.
  intros Hread Href. unfold download_m3u8_video_to_mp4_with_resume.
  unfold bind at 1. rewrite load_download_state_readable by done.
  unfold bind at 1. unfold requests_get.
  destruct (http w (length (wire w)) m3u8_url) as [status_code content|e'];
    cbn [refused] in Href.
  - destruct Href as [Hs ->]. apply error_status_iff in Hs.
    unfold bind at 1. unfold raise_for_status. cbn [fst]. by rewrite Hs.
  - by subst.
Qed.

Lemma disk_only_after_fetch output_filename ts_files :
  disk_only (after_fetch output_filename ts_files).
Proof.
  unfold after_fetch.
  apply disk_only_bind; [apply disk_only_concatenate_videos|]. intros _.
  apply disk_only_bind; [apply disk_only_convert|]. intros _.
  apply disk_only_bind; [apply disk_only_cleanup|]. intros _.
  apply disk_only_try_except; [apply disk_only_os_remove|].
  intros e. apply disk_only_ret.
Qed.

(** X18.  [download_m3u8_video_to_mp4] in every outcome: its first request
    is the manifest, and the requests after it are those for the segments
    of the filtered manifest, in order and one each; when it returns it has
    requested every segment. *)
Theorem download_m3u8_video_to_mp4_trace (m3u8_url output_filename : str)
    (w w' : world) (r : outcome unit) :
  let plan := manifest_plan m3u8_url (http w (length (wire w)) m3u8_url) in
  download_m3u8_video_to_mp4 m3u8_url output_filename w = (w', r) ->
  (exists k, wire w' = wire w ++ m3u8_url :: take k (map fst plan))
  /\ (r = Returned tt -> wire w' = wire w ++ m3u8_url :: map fst plan).
Proof.
  intros plan.
  destruct (reply_cases (http w (length (wire w)) m3u8_url)) as [Hacc|[e Href]].
  - rewrite download_m3u8_video_to_mp4_accepted by done. unfold bind.
    destruct (download_ts_segments _ _ _) as [w3 r3] eqn:Hfetch.
    rewrite download_ts_segments_run_plain in Hfetch.
    apply run_plain_trace in Hfetch as ([k Hk] & _ & _ & _ & Hx).
    unfold world_with_manifest in Hk, Hx. cbn [wire store] in Hk, Hx.
    fold (manifest_plan m3u8_url (http w (length (wire w)) m3u8_url)) in Hk, Hx.
    fold plan in Hk, Hx.
    destruct r3 as [ts_files|e].
    + intros Hrun. apply disk_only_after_fetch in Hrun as (_ & Hw' & _).
      destruct (Hx _ eq_refl) as [_ Hall].
      rewrite Hw', Hall, <- app_assoc.
      split; [|done]. exists (length (map fst plan)). by rewrite firstn_all.
    + intros [= <- <-]. split; [|done].
      exists k. by rewrite Hk, <- app_assoc.
  - rewrite (download_m3u8_video_to_mp4_refused _ _ _ e) by done.
    intros [= <- <-]. cbn [store wire]. split; [|done].
    exists 0. by rewrite take_0.
Qed.

(** X19.  The entry points catch nothing before the assembly and clean
    nothing up on the way out: when the manifest request is refused they
    raise that error and only the request was made; when the fetch of the
    segments raises they raise the same error and leave the world as the
    fetch left it, the temporary manifest included. *)
Theorem entry_points_propagate_errors (m3u8_url output_filename : str) (w : world) :
  let r0 := http w (length (wire w)) m3u8_url in
  (forall e, refused r0 e ->
     download_m3u8_video_to_mp4 m3u8_url output_filename w
     = (World (disk w) (store w) (wire w ++ [m3u8_url]) (http w), Raised e))
  /\ (forall w3 e, accepted r0 ->
        download_ts_segments (filtered_manifest r0) (base_url_of m3u8_url)
          (world_with_manifest m3u8_url w) = (w3, Raised e) ->
        download_m3u8_video_to_mp4 m3u8_url output_filename w = (w3, Raised e))
  /\ (forall e, state_readable m3u8_url w -> refused r0 e ->
        download_m3u8_video_to_mp4_with_resume m3u8_url output_filename w
        = (World (disk w) (store w) (wire w ++ [m3u8_url]) (http w), Raised e))
  /\ (forall w3 e, state_readable m3u8_url w -> accepted r0 ->
        download_ts_segments_with_resume (filtered_manifest r0)
          (base_url_of m3u8_url)
          (list_to_set (key_downloaded_segments (stored_state m3u8_url w)))
          m3u8_url (world_with_manifest m3u8_url w) = (w3, Raised e) ->
        download_m3u8_video_to_mp4_with_resume m3u8_url output_filename w
        = (w3, Raised e)).
Proof.
  intros r0. split; [|split; [|split]].
  - intros e Href. by apply download_m3u8_video_to_mp4_refused.
  - intros w3 e Hacc Hfetch.
    rewrite download_m3u8_video_to_mp4_accepted by done.
    unfold bind. fold r0. by rewrite Hfetch.
  - intros e Hread Href. by apply download_m3u8_video_to_mp4_with_resume_refused.
  - intros w3 e Hread Hacc Hfetch.
    rewrite download_m3u8_video_to_mp4_with_resume_accepted by done.
    unfold bind. fold r0. by rewrite Hfetch.
Qed.

(** X20.  A state file that is corrupt or cannot be opened stops
    [download_m3u8_video_to_mp4_with_resume] before it does anything: it
    raises the error of the load, and no request has been made and no file
    written. *)
Theorem resume_entry_blocked_by_state_file (m3u8_url output_filename : str)
    (w : world) :
  (store w !! get_download_state_filename m3u8_url = Some (Text Garbage) ->
   download_m3u8_video_to_mp4_with_resume m3u8_url output_filename w
   = (w, Raised JSONDecodeError))
  /\ (store w !! get_download_state_filename m3u8_url = Some Locked ->
      download_m3u8_video_to_mp4_with_resume m3u8_url output_filename w
      = (w, Raised PermissionError)).
Proof.
  unfold download_m3u8_video_to_mp4_with_resume.
  split; intros Hst; unfold bind at 1; rewrite load_download_state_eq, Hst; done.
Qed.








End EntryPointProperties.

(** ** Samples of the clean-up, the conversion and the entry points *)

Lemma cleanup_temp_files_removes_all_sample :
  exists w',
    cleanup_temp_files temp_m3u8_path [py "a.ts"; py "b.ts"] cleanup_world
    = (w', Returned tt)
    /\ disk w' !! py "b.ts" = None.
Proof.
  destruct (cleanup_temp_files_removes_all temp_m3u8_path [py "a.ts"; py "b.ts"]
              cleanup_world) as (w' & Hrun & Hgone).
  - by_decide.
  - intros f Hf.
    repeat (apply elem_of_cons in Hf as [->|Hf]; [vm_compute; eauto|]).
    by apply not_elem_of_nil in Hf.
  - exists w'. split; [exact Hrun|]. apply Hgone. by_decide.
Defined.

Lemma cleanup_temp_files_stops_sample :
  exists w',
    cleanup_temp_files temp_m3u8_path [py "a.ts"; py "a.ts"; py "b.ts"] cleanup_world
    = (w', Returned tt)
    /\ disk w' !! py "a.ts" = None
    /\ disk w' !! py "b.ts" = Some packet.
Proof.
  destruct (cleanup_temp_files_stops temp_m3u8_path [py "a.ts"; py "a.ts"; py "b.ts"]
              cleanup_world [temp_m3u8_path; py "a.ts"] (py "a.ts") [py "b.ts"])
    as (w' & Hrun & Hgone & Hkeep).
  - reflexivity.
  - by_decide.
  - intros f Hf.
    repeat (apply elem_of_cons in Hf as [->|Hf]; [vm_compute; eauto|]).
    by apply not_elem_of_nil in Hf.
  - left. by_decide.
  - exists w'. split; [exact Hrun|]. split.
    + apply Hgone. by_decide.
    + rewrite Hkeep by by_decide. vm_compute. reflexivity.
Defined.


Lemma download_m3u8_video_to_mp4_trace_sample :
  exists w',
    download_m3u8_video_to_mp4 (H := sample_library)
      (H0 := sample_platform) (H1 := sample_buffering)
      sample_m3u8_url (py "video") entry_world = (w', Returned tt)
    /\ wire w' = sample_m3u8_url :: map fst sample_plan.
Proof.
  assert (exists w',
             download_m3u8_video_to_mp4 (H := sample_library)
      (H0 := sample_platform) (H1 := sample_buffering)
               sample_m3u8_url (py "video") entry_world = (w', Returned tt))
    as [w' Hrun] by (eexists; vm_compute; reflexivity).
  destruct (download_m3u8_video_to_mp4_trace (H := sample_library)
              (H0 := sample_platform) (H1 := sample_buffering) _ _ _ _ _ Hrun) as (_ & Hw).
  exists w'. split; [exact Hrun|].
  rewrite (Hw eq_refl). vm_compute. reflexivity.
Defined.

Lemma entry_points_propagate_errors_sample :
  download_m3u8_video_to_mp4_with_resume (H := sample_library)
      (H0 := sample_platform) (H1 := sample_buffering)
    sample_m3u8_url (py "video") entry_refused_world
  = (World ∅ ∅ [sample_m3u8_url] (http entry_refused_world), Raised (HTTPError 404)).
Proof.
  apply (proj1 (proj2 (proj2 (entry_points_propagate_errors (H := sample_library)
                                (H0 := sample_platform) (H1 := sample_buffering)
                                sample_m3u8_url (py "video")
                                entry_refused_world)))).
  - vm_compute. exact I.
  - cbn [entry_refused_world http refused]. split; [lia | reflexivity].
Defined.

Lemma resume_entry_blocked_by_state_file_sample :
  download_m3u8_video_to_mp4_with_resume (H := sample_library)
      (H0 := sample_platform) (H1 := sample_buffering)
    sample_m3u8_url (py "video") corrupt_world
  = (corrupt_world, Raised JSONDecodeError).
Proof.
  apply (proj1 (resume_entry_blocked_by_state_file (H := sample_library)
                  (H0 := sample_platform) (H1 := sample_buffering)
                  sample_m3u8_url (py "video") corrupt_world)).
  vm_compute. reflexivity.
Defined.


